(** * granola_sync: document transformation and sync pipeline

    A shallow embedding of [granola_sync.py] and the properties of its
    filename sanitizer, speaker resolver, rich-text converter, transcript
    formatter and per-document sync step.

    Conventions of the embedding.
    - A Python [str] is a [string]; each character stands for the code point
      of the same number (0..255).
    - A value decoded from JSON is a [value]; a [dict] keeps its bindings in
      insertion order as an association list whose lookup takes the first
      binding of a key (keys of a decoded object are distinct).
    - A call that may raise returns a [result]; the two exceptions the
      transformation code can raise on decoded JSON are [AttributeError]
      (a method missing on the receiver) and [TypeError].
    - The file system below the output directory, the log and the transcript
      requests are fields of an explicit [world]; the log is kept apart from
      the output files.  The timestamp parser of the standard library, the
      transcript endpoint and the answers of the operating system are the
      fields of an [env] that every statement quantifies over.  The pause
      after a transcript request changes nothing in the world and is left
      out. *)

From Stdlib Require Import ZArith Ascii String List Lia DecimalString.
From stdpp Require Import base option list strings gmap.

Local Open Scope string_scope.
Local Open Scope Z_scope.

(** ** Python strings *)

Module PyStr.

Definition chr (n : nat) : string := String (ascii_of_nat n) "".

(** The characters that cannot be written inside a string literal here. *)
Definition NL : string := chr 10.
Definition DQ : string := chr 34.
Definition dquote : ascii := ascii_of_nat 34.
Definition bslash : ascii := ascii_of_nat 92.

Definition code (c : ascii) : nat := nat_of_ascii c.

(** [str.isspace] on one character: 9..13, 28..32, 0x85 and 0xa0. *)
Definition is_space (c : ascii) : bool :=
  let n := code c in
  ((9 <=? n) && (n <=? 13) || (28 <=? n) && (n <=? 32)
   || (n =? 133) || (n =? 160))%nat.

Fixpoint concat (l : list string) : string :=
  match l with
  | [] => ""
  | s :: r => s +:+ concat r
  end.

(** [sep.join(l)] *)
Fixpoint join (sep : string) (l : list string) : string :=
  match l with
  | [] => ""
  | [s] => s
  | s :: r => s +:+ sep +:+ join sep r
  end.

(** [s * n] for a string [s] and an [int] [n]: empty when [n <= 0]. *)
Definition repeat (s : string) (n : Z) : string :=
  concat (List.repeat s (Z.to_nat n)).

(** [s.replace(old, new)]: the occurrences of [old] are taken from left to
    right and do not overlap.  [skip] counts the characters of an occurrence
    that are still to be dropped. *)
Fixpoint replace_from (old new : string) (skip : nat) (s : string) : string :=
  match s with
  | "" => ""
  | String c s' =>
      match skip with
      | S k => replace_from old new k s'
      | O =>
          if String.prefix old s
          then new +:+ replace_from old new (String.length old - 1) s'
          else String c (replace_from old new 0 s')
      end
  end.

Fixpoint interleave (new : string) (s : string) : string :=
  match s with
  | "" => ""
  | String c s' => String c (new +:+ interleave new s')
  end.

Definition replace (old new s : string) : string :=
  match old with
  | "" => new +:+ interleave new s
  | _ => replace_from old new 0 s
  end.

(** [s.split()]: the maximal runs of characters that are not whitespace.
    [cur] is the word being read, if any. *)
Fixpoint split_from (cur : option string) (s : string) : list string :=
  match s with
  | "" => match cur with Some w => [w] | None => [] end
  | String c s' =>
      if is_space c
      then match cur with
           | Some w => w :: split_from None s'
           | None => split_from None s'
           end
      else split_from (Some (match cur with
                             | Some w => w +:+ String c ""
                             | None => String c ""
                             end)) s'
  end.

Definition split (s : string) : list string := split_from None s.

Fixpoint lstrip (s : string) : string :=
  match s with
  | "" => ""
  | String c s' => if is_space c then lstrip s' else s
  end.

Fixpoint rstrip (s : string) : string :=
  match s with
  | "" => ""
  | String c s' =>
      match rstrip s' with
      | "" => if is_space c then "" else String c ""
      | r => String c r
      end
  end.

(** [s.strip()] *)
Definition strip (s : string) : string := rstrip (lstrip s).

(** [c in s] for a character [c]. *)
Fixpoint mem (c : ascii) (s : string) : bool :=
  match s with
  | "" => false
  | String a s' => Ascii.eqb a c || mem c s'
  end.

(** [sub in s] *)
Fixpoint contains (sub s : string) : bool :=
  String.prefix sub s ||
  match s with
  | "" => false
  | String _ s' => contains sub s'
  end.

(** The string made of [f c] for each character [c] of [s], in order. *)
Fixpoint each_char (f : ascii → string) (s : string) : string :=
  match s with
  | "" => ""
  | String c r => f c +:+ each_char f r
  end.

(** [str(n)] for an [int]. *)
Definition of_int (n : Z) : string := NilZero.string_of_int (Z.to_int n).

End PyStr.

(** ** Decoded JSON values and the exceptions of the code *)

#[warnings="-register-all"]
Inductive value : Type :=
| VNone
| VBool (b : bool)
| VInt (n : Z)
| VFloat (repr : string)   (* a float, kept as the text [repr] prints *)
| VStr (s : string)
| VList (l : list value)
| VDict (d : list (string * value)).

Inductive exn : Type := AttributeError | TypeError.

Inductive result (A : Type) : Type :=
| Ok (a : A)
| Raise (e : exn).
Arguments Ok {A} a.
Arguments Raise {A} e.

#[export] Instance result_ret : MRet result := fun A a => Ok a.
#[export] Instance result_bind : MBind result := fun A B f m =>
  match m with
  | Ok a => f a
  | Raise e => Raise e
  end.

Module Py.

(** [bool(v)] *)
Definition truthy (v : value) : bool :=
  match v with
  | VNone => false
  | VBool b => b
  | VInt n => negb (n =? 0)
  | VFloat r => negb (String.eqb r "0.0" || String.eqb r "-0.0")
  | VStr s => negb (String.eqb s "")
  | VList l => match l with [] => false | _ => true end
  | VDict d => match d with [] => false | _ => true end
  end.

(** [a or b] *)
Definition or (a b : value) : value := if truthy a then a else b.

(** [v == s] for a string literal [s] *)
Definition eq_str (v : value) (s : string) : bool :=
  match v with
  | VStr t => String.eqb t s
  | _ => false
  end.

Fixpoint lookup (d : list (string * value)) (k : string) : option value :=
  match d with
  | [] => None
  | (k', v) :: d' => if String.eqb k' k then Some v else lookup d' k
  end.

(** [d.get(k, dflt)] on a dict *)
Definition dget (d : list (string * value)) (k : string) (dflt : value) : value :=
  default dflt (lookup d k).

(** [v.get(k, dflt)]: only a dict has the method. *)
Definition get (v : value) (k : string) (dflt : value) : result value :=
  match v with
  | VDict d => Ok (dget d k dflt)
  | _ => Raise AttributeError
  end.

(** The items of [for x in v]: a str yields its characters, a dict its
    keys; None and numbers are not iterable. *)
Fixpoint chars (s : string) : list value :=
  match s with
  | "" => []
  | String c s' => VStr (String c "") :: chars s'
  end.

Definition iter (v : value) : result (list value) :=
  match v with
  | VList l => Ok l
  | VStr s => Ok (chars s)
  | VDict d => Ok (List.map (fun kv => VStr (fst kv)) d)
  | _ => Raise TypeError
  end.

(** [''.join(parts)]: every part has to be a str. *)
Fixpoint join_empty (parts : list value) : result string :=
  match parts with
  | [] => Ok ""
  | VStr s :: r => t ← join_empty r; Ok (s +:+ t)
  | _ :: _ => Raise TypeError
  end.

(** [s * n]: [n] has to be an int (a bool counts as 0 or 1). *)
Definition times (s : string) (n : value) : result string :=
  match n with
  | VInt k => Ok (PyStr.repeat s k)
  | VBool b => Ok (PyStr.repeat s (if b then 1 else 0))
  | _ => Raise TypeError
  end.

(** [repr(s)] for a str. *)
Definition hex_digit (n : nat) : ascii :=
  ascii_of_nat (if (n <? 10)%nat then 48 + n else 87 + n).

Definition repr_char (quote c : ascii) : string :=
  let n := PyStr.code c in
  let hex := String PyStr.bslash (String "x" (String (hex_digit (n / 16))
               (String (hex_digit (n mod 16)) ""))) in
  if Ascii.eqb c quote || Ascii.eqb c PyStr.bslash then String PyStr.bslash (String c "")
  else if (n =? 9)%nat then String PyStr.bslash "t"
  else if (n =? 10)%nat then String PyStr.bslash "n"
  else if (n =? 13)%nat then String PyStr.bslash "r"
  else if ((n <? 32) || (n =? 127) || (127 <? n) && (n <=? 160) || (n =? 173))%nat then hex
  else String c "".

Fixpoint repr_chars (quote : ascii) (s : string) : string :=
  match s with
  | "" => ""
  | String c s' => repr_char quote c +:+ repr_chars quote s'
  end.

Definition repr_str (s : string) : string :=
  let quote := if PyStr.mem "'" s && negb (PyStr.mem PyStr.dquote s)
               then PyStr.dquote else "'"%char in
  String quote (repr_chars quote s +:+ String quote "").

Fixpoint repr (v : value) : string :=
  match v with
  | VNone => "None"
  | VBool b => if b then "True" else "False"
  | VInt n => PyStr.of_int n
  | VFloat r => r
  | VStr s => repr_str s
  | VList l => "[" +:+ PyStr.join ", " (List.map repr l) +:+ "]"
  | VDict d =>
      "{" +:+ PyStr.join ", "
                (List.map (fun kv => repr_str (fst kv) +:+ ": " +:+ repr (snd kv)) d)
          +:+ "}"
  end.

(** [str(v)], which is what an f-string field [{v}] inserts. *)
Definition str (v : value) : string :=
  match v with
  | VStr s => s
  | _ => repr v
  end.

End Py.

(** ** The rich-text converter: [parse_prosemirror] *)

(** The loop over the marks of a text node.  [text] is the running value of
    the variable [text]; a link mark returns at once. *)
Fixpoint apply_marks (marks : list value) (text : value) : result value :=
  match marks with
  | [] => Ok text
  | mark :: rest =>
      m_type ← Py.get mark "type" VNone;
      if Py.eq_str m_type "bold" then
        apply_marks rest (VStr ("**" +:+ Py.str text +:+ "**"))
      else if Py.eq_str m_type "italic" then
        apply_marks rest (VStr ("*" +:+ Py.str text +:+ "*"))
      else if Py.eq_str m_type "code" then
        apply_marks rest (VStr ("`" +:+ Py.str text +:+ "`"))
      else if Py.eq_str m_type "link" then
        attrs ← Py.get mark "attrs" (VDict []);
        href ← Py.get attrs "href" (VStr "");
        Ok (VStr ("[" +:+ Py.str text +:+ "](" +:+ Py.str href +:+ ")"))
      else apply_marks rest text
  end.

(** The dispatch on the node type, once [child_text] is known. *)
Definition render_node (node : list (string * value)) (child_text : string)
  : result value :=
  let node_type := Py.dget node "type" (VStr "") in
  let text := Py.dget node "text" (VStr "") in
  if Py.eq_str node_type "doc" then Ok (VStr child_text)
  else if Py.eq_str node_type "heading" then
    level ← Py.get (Py.dget node "attrs" (VDict [])) "level" (VInt 1);
    hashes ← Py.times "#" level;
    Ok (VStr (hashes +:+ " " +:+ child_text +:+ PyStr.NL +:+ PyStr.NL))
  else if Py.eq_str node_type "paragraph" then
    Ok (VStr (child_text +:+ PyStr.NL +:+ PyStr.NL))
  else if Py.eq_str node_type "bulletList" then
    Ok (VStr (child_text +:+ PyStr.NL))
  else if Py.eq_str node_type "orderedList" then
    Ok (VStr (child_text +:+ PyStr.NL))
  else if Py.eq_str node_type "listItem" then
    Ok (VStr ("- " +:+ PyStr.strip child_text +:+ PyStr.NL))
  else if Py.eq_str node_type "text" then
    marks ← Py.iter (Py.dget node "marks" (VList []));
    apply_marks marks text
  else if Py.eq_str node_type "horizontalRule" then
    Ok (VStr (PyStr.NL +:+ "---" +:+ PyStr.NL +:+ PyStr.NL))
  else Ok (VStr child_text).

(** [''.join(render(child) for child in content)] where [content] is the
    value bound to the key ["content"], [[]] when the key is missing.  A str
    or a dict as content yields strs as children, each rendered as [""]. *)
Definition children_text (render : value → result value)
  : list (string * value) → result string :=
  fix find (node : list (string * value)) : result string :=
    match node with
    | [] => Ok ""
    | (k, content) :: node' =>
        if String.eqb k "content" then
          match content with
          | VList l => parts ← mapM render l; Py.join_empty parts
          | VStr _ | VDict _ => Ok ""
          | _ => Raise TypeError
          end
        else find node'
    end.

Fixpoint parse_prosemirror (node : value) : result value :=
  match node with
  | VDict d =>
      child_text ← children_text parse_prosemirror d;
      render_node d child_text
  | _ => Ok (VStr "")
  end.

(** ** The filename sanitizer *)

(** The characters of the string [invalid_chars], in its order. *)
Definition invalid_chars : list string := [PyStr.DQ; "\"; "|"; "?"; "*"].

Definition sanitize_filename (name : string) : string :=
  let name := PyStr.replace "<>" "and" name in
  let name := PyStr.replace ":" "" name in
  let name := PyStr.replace "/" "-" name in
  let name := fold_left (fun name char => PyStr.replace char "-" name)
                        invalid_chars name in
  PyStr.join " " (PyStr.split name).

(** ** The speaker resolver *)

Definition resolve_speaker_name (segment creator_name : value)
    (attendee_names : list value) : result value :=
  source ← Py.get segment "source" VNone;
  if Py.eq_str source "microphone" then Ok (Py.or creator_name (VStr "Me"))
  else if Py.eq_str source "system" then
    if (List.length attendee_names =? 1)%nat then
      Ok (List.nth 0 attendee_names VNone)
    else if (1 <? List.length attendee_names)%nat then Ok (VStr "Remote Speaker")
    else Ok (VStr "Speaker")
  else Ok (VStr "Unknown").

(** ** The transcript formatter *)

Fixpoint transcript_lines (transcript_data : list value) (creator_name : value)
    (attendee_names : list value) : result (list string) :=
  match transcript_data with
  | [] => Ok []
  | segment :: rest =>
      text ← Py.get segment "text" VNone;
      if Py.truthy text then
        name ← resolve_speaker_name segment creator_name attendee_names;
        segments ← transcript_lines rest creator_name attendee_names;
        Ok (("**" +:+ Py.str name +:+ "**: " +:+ Py.str text) :: segments)
      else transcript_lines rest creator_name attendee_names
  end.

Definition transcript_heading : string :=
  PyStr.NL +:+ PyStr.NL +:+ "---" +:+ PyStr.NL +:+ "## Full Transcript"
  +:+ PyStr.NL +:+ PyStr.NL.

Definition format_transcript (transcript_data creator_name : value)
    (attendee_names : list value) : result string :=
  if negb (Py.truthy transcript_data) then Ok ""
  else
    items ← Py.iter transcript_data;
    segments ← transcript_lines items creator_name attendee_names;
    match segments with
    | [] => Ok ""
    | _ => Ok (transcript_heading +:+ PyStr.join (PyStr.NL +:+ PyStr.NL) segments)
    end.

(** ** The people extractor *)

Record person : Type := Person { name : value; email : value }.
Record people : Type := People { creator : person; attendees : list person }.

(** The value of [name_obj] for an attendee record. *)
Definition name_obj_of (att : value) : result value :=
  details0 ← Py.get att "details" VNone;
  let details := Py.or details0 (VDict []) in
  person0 ← Py.get details "person" VNone;
  let person := Py.or person0 (VDict []) in
  name_obj0 ← Py.get person "name" VNone;
  Ok (Py.or name_obj0 (VDict [])).

Definition attendee_name (att : value) : result value :=
  name ← Py.get att "email" VNone;
  name_obj ← name_obj_of att;
  match name_obj with
  | VDict _ =>
      possible_name ← Py.get name_obj "fullName" VNone;
      if Py.truthy possible_name then Ok possible_name else Ok name
  | VStr _ => Ok name_obj
  | _ => Ok name
  end.

Fixpoint extract_attendees (raw_attendees : list value) : result (list person) :=
  match raw_attendees with
  | [] => Ok []
  | att :: rest =>
      match att with
      | VDict _ =>
          name ← attendee_name att;
          email ← Py.get att "email" VNone;
          attendees_info ← extract_attendees rest;
          Ok ({| name := name; email := email |} :: attendees_info)
      | _ => extract_attendees rest
      end
  end.

Definition extract_people (doc : value) : result people :=
  people0 ← Py.get doc "people" VNone;
  let people_data := Py.or people0 (VDict []) in
  creator0 ← Py.get people_data "creator" VNone;
  let creator := Py.or creator0 (VDict []) in
  creator_name ← Py.get creator "name" VNone;
  creator_email ← Py.get creator "email" VNone;
  let creator_info :=
    {| name := Py.or creator_name (VStr "Me"); email := creator_email |} in
  raw0 ← Py.get people_data "attendees" VNone;
  raw_attendees ← Py.iter (Py.or raw0 (VList []));
  attendees_info ← extract_attendees raw_attendees;
  Ok {| creator := creator_info; attendees := attendees_info |}.

(** ** The world of [sync_document] *)

(** What the code reads of a [datetime]: the date, with a year between 1
    and 9999. *)
Record datetime : Type := Datetime { year : Z; month : Z; day : Z }.

Definition zero_pad (width : nat) (n : Z) : string :=
  let digits := PyStr.of_int n in
  PyStr.concat (List.repeat "0" (width - String.length digits)) +:+ digits.

(** [dt.strftime('%Y-%m-%d')], with the year on four digits and the month
    and the day on two, as the library documents the format. *)
Definition strftime_Ymd (dt : datetime) : string :=
  zero_pad 4 (year dt) +:+ "-" +:+ zero_pad 2 (month dt) +:+ "-" +:+ zero_pad 2 (day dt).

(** The answer of the transcript endpoint to one request. *)
Inductive response : Type :=
| NotFound                   (* status 404 *)
| Json (body : value)        (* the decoded body *)
| RequestFailed.             (* any [requests.RequestException] *)

(** What happens when a file is opened for writing and written. *)
Inductive write_outcome : Type :=
| Written
| OpenFailed
| WriteFailed (partial : string).

(** The collaborators of the pipeline: the library parser of timestamps
    ([None] stands for [ValueError]), the transcript endpoint and the
    operating system's answers to [mkdir] and to writing a file. *)
Record env : Type := Env {
  fromisoformat : string → option datetime;
  post_transcript : string → value → response;
  mkdir_ok : string → bool;
  write_file_outcome : string → string → write_outcome
}.

Inductive log_entry : Type :=
| SkippingExisting (filename : string)
| DownloadingNew (title : string)
| MkdirFailed (target_dir : string)
| WriteFileFailed (filename : string)
| TranscriptApiError (doc_id : string)
| CriticalError (title : string).

(** Paths are relative to [OUTPUT_DIR].  [fetched] lists the document ids
    whose transcript was requested, oldest first. *)
Record world : Type := World {
  files : gmap string string;
  dirs : gset string;
  fetched : list value;
  log : list log_entry
}.

(** State passing with exceptions; the effects made before a raise stay. *)
Definition M (A : Type) : Type := world → result A * world.

#[export] Instance M_ret : MRet M := fun A a w => (Ok a, w).
#[export] Instance M_bind : MBind M := fun A B f m w =>
  match m w with
  | (Ok a, w') => f a w'
  | (Raise e, w') => (Raise e, w')
  end.

Definition lift {A : Type} (r : result A) : M A := fun w => (r, w).

Definition logger (entry : log_entry) : M unit := fun w =>
  (Ok tt, {| files := files w; dirs := dirs w; fetched := fetched w;
             log := log w ++ [entry] |}).

(** Something exists at [path], a folder or a file. *)
Definition exists_at (w : world) (path : string) : Prop :=
  path ∈ dirs w ∨ is_Some (files w !! path).

#[export] Instance exists_at_dec (w : world) (path : string) :
  Decision (exists_at w path) := or_dec _ _.

(** [path.exists()], for a path that the operating system accepts.  A path
    it refuses, such as a file name that is too long, makes the call raise
    [OSError]; such paths are left out of the model, and the statements that
    depend on it assume that the path can be written. *)
Definition path_exists (path : string) : M bool := fun w =>
  (Ok (bool_decide (exists_at w path)), w).

(** [target_dir / filename] *)
Definition path_of (target_dir filename : string) : string :=
  target_dir +:+ "/" +:+ filename.

(** A transcript request for [doc_id] leaves the process. *)
Definition request_sent (doc_id : value) : M unit := fun w =>
  (Ok tt, {| files := files w; dirs := dirs w;
             fetched := fetched w ++ [doc_id]; log := log w |}).

Section Pipeline.

Context (E : env).

(** [target_dir.mkdir(parents=True, exist_ok=True)]: [false] on [OSError]. *)
Definition mkdir (target_dir : string) : M bool := fun w =>
  if mkdir_ok E target_dir
  then (Ok true, {| files := files w; dirs := {[target_dir]} ∪ dirs w;
                    fetched := fetched w; log := log w |})
  else (Ok false, w).

(** [open(filepath, 'w')] followed by [f.write(content)]: [false] on [IOError]. *)
Definition write_file (filepath content : string) : M bool := fun w =>
  match write_file_outcome E filepath content with
  | Written =>
      (Ok true, {| files := <[filepath := content]> (files w); dirs := dirs w;
                   fetched := fetched w; log := log w |})
  | OpenFailed => (Ok false, w)
  | WriteFailed partial =>
      (Ok false, {| files := <[filepath := partial]> (files w); dirs := dirs w;
                    fetched := fetched w; log := log w |})
  end.

(** A 404 and a failed request both give [None]; the request is made in
    every case. *)
Definition fetch_transcript (token : string) (doc_id : value) : M value :=
  request_sent doc_id;;
  match post_transcript E token doc_id with
  | NotFound => mret VNone
  | Json body => mret body
  | RequestFailed => logger (TranscriptApiError (Py.str doc_id));; mret VNone
  end.

(** The receiver of a str method such as [replace]: anything else than a
    str has no such method. *)
Definition str_receiver (v : value) : result string :=
  match v with
  | VStr s => Ok s
  | _ => Raise AttributeError
  end.

(** Step 1: the date prefix and the year folder. *)
Definition date_parts (created_at_str : value) : result (string * string) :=
  if Py.truthy created_at_str then
    s ← str_receiver created_at_str;
    match fromisoformat E (PyStr.replace "Z" "+00:00" s) with
    | Some dt => Ok (strftime_Ymd dt, PyStr.of_int (year dt))
    | None => Ok ("0000-00-00", "Unknown_Year")
    end
  else Ok ("0000-00-00", "Unknown_Year").

(** The year folder is created when it is missing; [false] when that fails. *)
Definition ensure_dir (target_dir : string) : M bool :=
  present ← path_exists target_dir;
  if (present : bool) then mret true
  else
    made ← mkdir target_dir;
    if (made : bool) then mret true
    else logger (MkdirFailed target_dir);; mret false.

(** Step 2: the notes of the last viewed panel. *)
Definition markdown_notes_of (doc : value) : result value :=
  panel ← Py.get doc "last_viewed_panel" VNone;
  match panel with
  | VDict p =>
      let content := Py.dget p "content" VNone in
      match content with
      | VDict c =>
          if Py.eq_str (Py.dget c "type" VNone) "doc"
          then parse_prosemirror content
          else Ok (VStr "")
      | _ => Ok (VStr "")
      end
  | _ => Ok (VStr "")
  end.

(** Step 4: the YAML frontmatter. *)
Definition participant_entry (p : person) : string :=
  "  - name: " +:+ PyStr.DQ +:+ Py.str (name p) +:+ PyStr.DQ +:+ PyStr.NL
  +:+ (if Py.truthy (email p)
       then "    email: " +:+ PyStr.DQ +:+ Py.str (email p) +:+ PyStr.DQ +:+ PyStr.NL
       else "").

Definition escape_title (title : string) : string :=
  PyStr.replace PyStr.DQ (String PyStr.bslash PyStr.DQ) title.

Definition frontmatter (doc_id : value) (safe_title : string)
    (created_at_str : value) (ps : people) : string :=
  "---" +:+ PyStr.NL
  +:+ "granola_id: " +:+ Py.str doc_id +:+ PyStr.NL
  +:+ "title: " +:+ PyStr.DQ +:+ safe_title +:+ PyStr.DQ +:+ PyStr.NL
  +:+ "created_at: " +:+ Py.str created_at_str +:+ PyStr.NL
  +:+ "participants:" +:+ PyStr.NL
  +:+ participant_entry (creator ps)
  +:+ PyStr.concat (List.map participant_entry (attendees ps))
  +:+ "---" +:+ PyStr.NL +:+ PyStr.NL.

(** [a + b] where [a] is a str. *)
Definition str_add (a : string) (b : value) : result string :=
  match b with
  | VStr s => Ok (a +:+ s)
  | _ => Raise TypeError
  end.

(** Steps 2 to 5, for a document whose file does not exist yet. *)
Definition download_document (doc : value) (token : string)
    (doc_id title created_at_str : value) (filename filepath : string) : M bool :=
  logger (DownloadingNew (Py.str title));;
  markdown_notes ← lift (markdown_notes_of doc);
  transcript_data ← fetch_transcript token doc_id;
  ps ← lift (extract_people doc);
  let creator_name := name (creator ps) in
  let attendee_names := List.map name (attendees ps) in
  transcript_text ← lift (format_transcript transcript_data creator_name attendee_names);
  title_str ← lift (str_receiver title);
  let safe_title := escape_title title_str in
  let fm := frontmatter doc_id safe_title created_at_str ps in
  with_notes ← lift (str_add fm markdown_notes);
  let full_content := with_notes +:+ transcript_text in
  saved ← write_file filepath full_content;
  if (saved : bool) then mret true
  else logger (WriteFileFailed filename);; mret false.

Definition sync_document (doc : value) (token : string) : M bool :=
  doc_id ← lift (Py.get doc "id" VNone);
  title ← lift (Py.get doc "title" (VStr "Untitled"));
  created_at_str ← lift (Py.get doc "created_at" (VStr ""));
  if negb (Py.truthy doc_id) then mret false
  else
    parts ← lift (date_parts created_at_str);
    let date_prefix := parts.1 in
    let year_folder := parts.2 in
    let target_dir := year_folder in
    ready ← ensure_dir target_dir;
    if negb (ready : bool) then mret false
    else
      name ← lift (str_receiver title);
      let filename := date_prefix +:+ " " +:+ sanitize_filename name +:+ ".md" in
      let filepath := path_of target_dir filename in
      present ← path_exists filepath;
      if (present : bool) then logger (SkippingExisting filename);; mret true
      else download_document doc token doc_id title created_at_str filename filepath.

(** The year folder and the file name that [sync_document] computes. *)
Definition target (doc : value) : result (string * string) :=
  title ← Py.get doc "title" (VStr "Untitled");
  created_at_str ← Py.get doc "created_at" (VStr "");
  parts ← date_parts created_at_str;
  name ← str_receiver title;
  Ok (parts.2, parts.1 +:+ " " +:+ sanitize_filename name +:+ ".md").

(** The loop of [main] over the documents.  The handler of an exception reads
    the title of the document, which raises again when the document is not a
    dict. *)
Fixpoint sync_documents (documents : list value) (token : string)
    (success_count : nat) : M nat :=
  match documents with
  | [] => mret success_count
  | doc :: rest => fun w =>
      match sync_document doc token w with
      | (Ok saved, w') =>
          sync_documents rest token
            (if saved then S success_count else success_count) w'
      | (Raise _, w') =>
          (title ← lift (Py.get doc "title" VNone);
           logger (CriticalError (Py.str title));;
           sync_documents rest token success_count) w'
      end
  end.

End Pipeline.

(** ** The sanitizer as the specification words it

    The five rules of the specification, each written on its own: the pair
    [<>] becomes the word [and]; colons are removed; a slash becomes a dash;
    each of the five remaining characters becomes a dash; every run of
    whitespace becomes one space and the ends are trimmed. *)

Module SanitizeSpec.

Fixpoint angle_pair_to_and (s : string) : string :=
  match s with
  | "" => ""
  | String c r =>
      match r with
      | String c' r' =>
          if Ascii.eqb c "<" && Ascii.eqb c' ">"
          then "and" +:+ angle_pair_to_and r'
          else String c (angle_pair_to_and r)
      | "" => String c ""
      end
  end.

Definition remove_colons : string → string :=
  PyStr.each_char (fun c => if Ascii.eqb c ":" then "" else String c "").

Definition slash_to_dash : string → string :=
  PyStr.each_char (fun c => if Ascii.eqb c "/" then "-" else String c "").

Definition is_remaining_invalid (c : ascii) : bool :=
  Ascii.eqb c PyStr.dquote || Ascii.eqb c PyStr.bslash || Ascii.eqb c "|"
  || Ascii.eqb c "?" || Ascii.eqb c "*".

Definition invalid_to_dash : string → string :=
  PyStr.each_char (fun c => if is_remaining_invalid c then "-" else String c "").

(** [in_run] tells that the previous character was whitespace. *)
Fixpoint collapse_runs (in_run : bool) (s : string) : string :=
  match s with
  | "" => ""
  | String c r =>
      if PyStr.is_space c
      then if in_run then collapse_runs true r else String " " (collapse_runs true r)
      else String c (collapse_runs false r)
  end.

Definition collapse_and_trim (s : string) : string :=
  PyStr.strip (collapse_runs false s).

Definition sanitize (title : string) : string :=
  collapse_and_trim
    (invalid_to_dash (slash_to_dash (remove_colons (angle_pair_to_and title)))).

End SanitizeSpec.

(** The characters that the sanitizer never leaves in a result: the colon,
    the slash, the five characters of [invalid_chars] and every whitespace
    character except the space. *)
Definition never_kept (c : ascii) : bool :=
  Ascii.eqb c ":" || Ascii.eqb c "/" || SanitizeSpec.is_remaining_invalid c
  || PyStr.is_space c && negb (Ascii.eqb c " ").

Fixpoint all_chars (p : ascii → bool) (s : string) : bool :=
  match s with
  | "" => true
  | String c r => p c && all_chars p r
  end.

(** Auxiliary readings of a string, used to relate [split] and [join] to
    the fifth rule: the word a string starts with, what follows that word,
    and the text that [join] puts after a first word. *)

Fixpoint word_prefix (s : string) : string :=
  match s with
  | "" => ""
  | String c r => if PyStr.is_space c then "" else String c (word_prefix r)
  end.

Fixpoint after_word (s : string) : string :=
  match s with
  | "" => ""
  | String c r => if PyStr.is_space c then s else after_word r
  end.

Definition more_words (l : list string) : string :=
  match l with
  | [] => ""
  | _ => " " +:+ PyStr.join " " l
  end.

(** The segments that carry a text, the name their line is attributed to
    and the line itself. *)

Definition has_text (segment : list (string * value)) : bool :=
  Py.truthy (Py.dget segment "text" VNone).

Definition speaker_of (creator_name : value) (attendee_names : list value)
    (segment : list (string * value)) : value :=
  match resolve_speaker_name (VDict segment) creator_name attendee_names with
  | Ok name => name
  | Raise _ => VNone
  end.

Definition spoken_line (creator_name : value) (attendee_names : list value)
    (segment : list (string * value)) : string :=
  "**" +:+ Py.str (speaker_of creator_name attendee_names segment) +:+ "**: "
  +:+ Py.str (Py.dget segment "text" VNone).

(** What the marks that come before a link mark make of the text: the loop
    of [parse_prosemirror] on marks that are records and none of them a link. *)

Definition wrap_mark (text : value) (mark : list (string * value)) : value :=
  let m_type := Py.dget mark "type" VNone in
  if Py.eq_str m_type "bold" then VStr ("**" +:+ Py.str text +:+ "**")
  else if Py.eq_str m_type "italic" then VStr ("*" +:+ Py.str text +:+ "*")
  else if Py.eq_str m_type "code" then VStr ("`" +:+ Py.str text +:+ "`")
  else text.

Definition decorate (marks : list (list (string * value))) (text : value) : value :=
  fold_left wrap_mark marks text.

(** An attendee's [name_obj] that gives no name: a record without a
    non-empty [fullName], or a value that is neither a record nor a str. *)
Definition no_resolvable_name (name_obj : value) : bool :=
  match name_obj with
  | VDict d => negb (Py.truthy (Py.dget d "fullName" VNone))
  | VStr _ => false
  | _ => true
  end.

(** [sub] occurs in [s] as a run of consecutive characters. *)
Definition occurs_in (sub s : string) : Prop :=
  ∃ pre post, s = pre +:+ sub +:+ post.

(** A document is synced in a world when it has an id and its year folder
    and the file that [sync_document] computes for it exist. *)
Definition synced (E : env) (w : world) (doc : value) : Prop :=
  ∃ d target_dir filename,
    doc = VDict d
    ∧ Py.truthy (Py.dget d "id" VNone) = true
    ∧ target E doc = Ok (target_dir, filename)
    ∧ exists_at w target_dir
    ∧ exists_at w (path_of target_dir filename).

(** Nothing was deleted between two worlds. *)
Definition no_deletion (w w' : world) : Prop :=
  ∀ path, exists_at w path → exists_at w' path.

(** A computation that deletes nothing. *)
Definition keeps_files {A : Type} (m : M A) : Prop :=
  ∀ w, no_deletion w (m w).2.

(** The document of the end-to-end example, for a given panel. *)
Definition team_sync_doc (panel : value) : value :=
  VDict [("id", VStr "d1"); ("title", VStr "Team Sync");
         ("created_at", VStr "2025-03-04T10:00:00Z");
         ("last_viewed_panel", panel);
         ("people", VDict [("creator", VDict [("name", VStr "Me")]);
                           ("attendees", VList [])])].

(** An environment for examples: the parser knows one timestamp, every
    document has the one-line transcript, and the file system never fails. *)
Definition example_env : env :=
  {| fromisoformat := fun s =>
       if String.eqb s "2025-03-04T10:00:00+00:00"
       then Some {| year := 2025; month := 3; day := 4 |}
       else None;
     post_transcript := fun _ _ =>
       Json (VList [VDict [("source", VStr "microphone"); ("text", VStr "Hi")]]);
     mkdir_ok := fun _ => true;
     write_file_outcome := fun _ _ => Written |}.

Definition empty_world : world :=
  {| files := ∅; dirs := ∅; fetched := []; log := [] |}.

(** ** Definitions for the further properties *)

(** A word of [split]: not empty and free of whitespace. *)
Definition is_word (w : string) : Prop :=
  w ≠ "" ∧ all_chars (fun c => negb (PyStr.is_space c)) w = true.

(** The records among the entries of a list, in their order. *)
Fixpoint records_of (l : list value) : list (list (string * value)) :=
  match l with
  | [] => []
  | VDict d :: r => d :: records_of r
  | _ :: r => records_of r
  end.

(** Computations that leave the files as they are, that make no transcript
    request, that keep the content of every file, that keep it provided
    nothing is yet at [filepath], and that make at most the one request for
    [doc_id]. *)
Definition same_files {A : Type} (m : M A) : Prop :=
  ∀ w, files (m w).2 = files w.

Definition no_request {A : Type} (m : M A) : Prop :=
  ∀ w, fetched (m w).2 = fetched w.

Definition keeps_content {A : Type} (m : M A) : Prop :=
  ∀ w path content,
    files w !! path = Some content → files (m w).2 !! path = Some content.

Definition fresh_write {A : Type} (filepath : string) (m : M A) : Prop :=
  ∀ w, files w !! filepath = None →
       ∀ path content,
         files w !! path = Some content → files (m w).2 !! path = Some content.

Definition one_request {A : Type} (doc_id : value) (m : M A) : Prop :=
  ∀ w, fetched (m w).2 = fetched w ∨ fetched (m w).2 = (fetched w ++ [doc_id])%list.

(** ** The access token: [load_access_token]

    The credentials file is missing, unreadable ([OSError]) or holds a text;
    [json_loads] is the library decoder, [None] standing for
    [JSONDecodeError].  The function returns its value together with the
    errors it logs. *)

Inductive creds_file : Type :=
| CredsMissing
| CredsUnreadable
| CredsText (text : string).

Record creds_env : Type := CredsEnv {
  creds : creds_file;
  json_loads : string → option value
}.

Inductive creds_error : Type :=
| CredentialsFileMissing
| TokensKeyMissing
| TokenNullOrEmpty
| CredentialsParseFailed.

(** The part of [load_access_token] that follows [data = json.load(f)].  The
    membership test works on a dict (its keys), a list (its elements) and a
    str (its substrings) and raises [TypeError] on anything else; the
    subscript by a str that follows raises [TypeError] on a list and on a
    str. *)
Definition token_of_data (C : creds_env) (data : value)
  : result value * list creds_error :=
  let decode (entry : value) : result value * list creds_error :=
    match entry with
    | VStr s =>
        match json_loads C s with
        | None => (Ok VNone, [CredentialsParseFailed])
        | Some workos_tokens =>
            match Py.get workos_tokens "access_token" VNone with
            | Raise e => (Raise e, [])
            | Ok token =>
                if Py.truthy token then (Ok token, [])
                else (Ok VNone, [TokenNullOrEmpty])
            end
        end
    | _ => (Raise TypeError, [])
    end in
  match data with
  | VDict d =>
      match Py.lookup d "workos_tokens" with
      | None => (Ok VNone, [TokensKeyMissing])
      | Some entry => decode entry
      end
  | VList l =>
      if existsb (fun v => Py.eq_str v "workos_tokens") l
      then (Raise TypeError, [])
      else (Ok VNone, [TokensKeyMissing])
  | VStr s =>
      if PyStr.contains "workos_tokens" s
      then (Raise TypeError, [])
      else (Ok VNone, [TokensKeyMissing])
  | _ => (Raise TypeError, [])
  end.

Definition load_access_token (C : creds_env) : result value * list creds_error :=
  match creds C with
  | CredsMissing => (Ok VNone, [CredentialsFileMissing])
  | CredsUnreadable => (Ok VNone, [CredentialsParseFailed])
  | CredsText text =>
      match json_loads C text with
      | None => (Ok VNone, [CredentialsParseFailed])
      | Some data => token_of_data C data
      end
  end.

(** * Properties *)

(** ** Python strings *)

Example replace_pair : PyStr.replace "<>" "and" "a<>b<<>>" = "aandb<and>".
Proof. reflexivity. Qed.
Example replace_Z : PyStr.replace "Z" "+00:00" "10:00Z" = "10:00+00:00".
Proof. reflexivity. Qed.
Example split_ex : PyStr.split "  a b   c " = ["a"; "b"; "c"].
Proof. reflexivity. Qed.
Example of_int_ex : PyStr.of_int (-120) = "-120" /\ PyStr.of_int 0 = "0".
Proof. split; reflexivity. Qed.
Example repr_ex :
  Py.str (VList [VStr "it's"; VNone; VInt 3; VDict [("k", VBool true)]])
  = "[" +:+ PyStr.DQ +:+ "it's" +:+ PyStr.DQ +:+ ", None, 3, {'k': True}]".
Proof. reflexivity. Qed.

Lemma append_assoc (a b c : string) : (a +:+ b) +:+ c = a +:+ (b +:+ c).
Proof.
  induction a as [|x a IH]; [reflexivity|].
  change (String x ((a +:+ b) +:+ c) = String x (a +:+ (b +:+ c))).
  now rewrite IH.
Qed.

Lemma append_nil_r (a : string) : a +:+ "" = a.
Proof.
  induction a as [|x a IH]; [reflexivity|].
  change (String x (a +:+ "") = String x a). now rewrite IH.
Qed.

Lemma prefix_cons (a c : ascii) (p s : string) :
  String.prefix (String a p) (String c s) = Ascii.eqb c a && String.prefix p s.
Proof.
  change (String.prefix (String a p) (String c s))
    with (if ascii_dec a c then String.prefix p s else false).
  destruct (ascii_dec a c) as [->|Hne].
  - now rewrite Ascii.eqb_refl.
  - replace (Ascii.eqb c a) with false; [reflexivity|].
    symmetry. apply Ascii.eqb_neq. congruence.
Qed.

Lemma prefix_nil (s : string) : String.prefix "" s = true.
Proof. destruct s; reflexivity. Qed.

Lemma prefix_one (a c : ascii) (s : string) :
  String.prefix (String a "") (String c s) = Ascii.eqb c a.
Proof. rewrite prefix_cons, prefix_nil. apply andb_true_r. Qed.

(** [replace] with a one-character pattern acts on each character. *)
Lemma replace_char (a : ascii) (new s : string) :
  PyStr.replace (String a "") new s
  = PyStr.each_char (fun c => if Ascii.eqb c a then new else String c "") s.
Proof.
  unfold PyStr.replace. induction s as [|c s IH]; [reflexivity|].
  cbn [PyStr.replace_from PyStr.each_char]. rewrite prefix_one.
  cbn [String.length Nat.sub]. destruct (Ascii.eqb c a).
  - now rewrite IH.
  - cbn. now rewrite IH.
Qed.

Lemma prefix_angle_pair (c : ascii) (s : string) :
  String.prefix "<>" (String c s)
  = match s with
    | String c' _ => Ascii.eqb c "<" && Ascii.eqb c' ">"
    | "" => false
    end.
Proof.
  rewrite prefix_cons. destruct s as [|c' s].
  - apply andb_false_r.
  - now rewrite prefix_one.
Qed.

(** [replace("<>", "and")] is the first rule.  The induction is on a bound of
    the length, since an occurrence consumes two characters. *)
Lemma replace_angle_pair_bounded (n : nat) (s : string) :
  (String.length s <= n)%nat →
  PyStr.replace_from "<>" "and" 0 s = SanitizeSpec.angle_pair_to_and s.
Proof.
  revert s. induction n as [|n IH]; intros s Hlen.
  - destruct s; [reflexivity | simpl in Hlen; lia].
  - destruct s as [|c s]; [reflexivity|].
    cbn [PyStr.replace_from SanitizeSpec.angle_pair_to_and].
    rewrite prefix_angle_pair. destruct s as [|c' s].
    + reflexivity.
    + simpl in Hlen. destruct (Ascii.eqb c "<" && Ascii.eqb c' ">").
      * cbn [String.length Nat.sub PyStr.replace_from].
        rewrite IH by lia. reflexivity.
      * rewrite IH by (simpl; lia). reflexivity.
Qed.

Lemma replace_angle_pair (s : string) :
  PyStr.replace "<>" "and" s = SanitizeSpec.angle_pair_to_and s.
Proof. apply (replace_angle_pair_bounded (String.length s)). lia. Qed.

Lemma each_char_cons (f : ascii → string) (c : ascii) (s : string) :
  PyStr.each_char f (String c s) = f c +:+ PyStr.each_char f s.
Proof. reflexivity. Qed.

Lemma append_cons (c : ascii) (a b : string) :
  String c a +:+ b = String c (a +:+ b).
Proof. reflexivity. Qed.

Lemma each_char_app (f : ascii → string) (a b : string) :
  PyStr.each_char f (a +:+ b)
  = PyStr.each_char f a +:+ PyStr.each_char f b.
Proof.
  induction a as [|c a IH]; [reflexivity|].
  rewrite append_cons, !each_char_cons, IH. symmetry. apply append_assoc.
Qed.

Lemma each_char_compose (f g : ascii → string) (s : string) :
  PyStr.each_char g (PyStr.each_char f s)
  = PyStr.each_char (fun c => PyStr.each_char g (f c)) s.
Proof.
  induction s as [|c s IH]; [reflexivity|].
  now rewrite !each_char_cons, each_char_app, IH.
Qed.

Lemma each_char_ext (f g : ascii → string) (s : string) :
  (∀ c, f c = g c) → PyStr.each_char f s = PyStr.each_char g s.
Proof.
  intros Hfg. induction s as [|c s IH]; [reflexivity|].
  now rewrite !each_char_cons, Hfg, IH.
Qed.

(** The loop over [invalid_chars] is the fourth rule. *)
Lemma invalid_chars_loop (s : string) :
  fold_left (fun name char => PyStr.replace char "-" name) invalid_chars s
  = SanitizeSpec.invalid_to_dash s.
Proof.
  unfold invalid_chars, SanitizeSpec.invalid_to_dash. cbn [fold_left].
  unfold PyStr.DQ, PyStr.chr. rewrite !replace_char, !each_char_compose.
  apply each_char_ext.
  intros [[] [] [] [] [] [] [] []]; reflexivity.
Qed.

(** *** [split], [join] and the fifth rule *)

Lemma split_from_word (w s : string) :
  PyStr.split_from (Some w) s
  = (w +:+ word_prefix s) :: PyStr.split (after_word s).
Proof.
  revert w. induction s as [|c s IH]; intros w.
  - cbn. now rewrite append_nil_r.
  - cbn [PyStr.split_from word_prefix after_word].
    destruct (PyStr.is_space c) eqn:Hc.
    + rewrite append_nil_r. unfold PyStr.split.
      cbn [PyStr.split_from]. now rewrite Hc.
    + rewrite IH, append_assoc. reflexivity.
Qed.

Lemma split_space (c : ascii) (s : string) :
  PyStr.is_space c = true → PyStr.split (String c s) = PyStr.split s.
Proof. intros Hc. unfold PyStr.split. cbn [PyStr.split_from]. now rewrite Hc. Qed.

Lemma split_word (c : ascii) (s : string) :
  PyStr.is_space c = false →
  PyStr.split (String c s) = String c (word_prefix s) :: PyStr.split (after_word s).
Proof.
  intros Hc. unfold PyStr.split at 1. cbn [PyStr.split_from]. rewrite Hc.
  now rewrite split_from_word.
Qed.

Lemma join_cons (w : string) (l : list string) :
  PyStr.join " " (w :: l) = w +:+ more_words l.
Proof. destruct l; cbn; [now rewrite append_nil_r | reflexivity]. Qed.

Lemma rstrip_cons (c : ascii) (r : string) :
  PyStr.is_space c = false → PyStr.rstrip (String c r) = String c (PyStr.rstrip r).
Proof. intros Hc. cbn [PyStr.rstrip]. destruct (PyStr.rstrip r); now rewrite ?Hc. Qed.

Lemma rstrip_collapse (s : string) :
  PyStr.rstrip (SanitizeSpec.collapse_runs false s)
  = word_prefix s +:+ more_words (PyStr.split (after_word s))
  ∧ PyStr.rstrip (String " " (SanitizeSpec.collapse_runs true s))
    = more_words (PyStr.split s).
Proof.
  induction s as [|c s [IHword IHrun]]; [split; reflexivity|].
  cbn [SanitizeSpec.collapse_runs word_prefix after_word].
  destruct (PyStr.is_space c) eqn:Hc.
  - rewrite split_space by exact Hc. split; [exact IHrun | exact IHrun].
  - rewrite (rstrip_cons c) by exact Hc. rewrite IHword. split; [reflexivity|].
    rewrite split_word by exact Hc.
    change (PyStr.rstrip (String " " ?x)) with
      (match PyStr.rstrip x with "" => "" | r => String " " r end).
    rewrite (rstrip_cons c) by exact Hc. rewrite IHword.
    unfold more_words at 2. rewrite join_cons. reflexivity.
Qed.

Lemma lstrip_collapse (s : string) :
  PyStr.lstrip (SanitizeSpec.collapse_runs true s)
  = PyStr.lstrip (SanitizeSpec.collapse_runs false s).
Proof.
  destruct s as [|c s]; [reflexivity|]. cbn [SanitizeSpec.collapse_runs].
  destruct (PyStr.is_space c); reflexivity.
Qed.

(** [" ".join(name.split())] collapses the runs of whitespace and trims. *)
Lemma join_split (s : string) :
  PyStr.join " " (PyStr.split s) = SanitizeSpec.collapse_and_trim s.
Proof.
  unfold SanitizeSpec.collapse_and_trim, PyStr.strip.
  induction s as [|c s IH]; [reflexivity|].
  cbn [SanitizeSpec.collapse_runs]. destruct (PyStr.is_space c) eqn:Hc.
  - rewrite split_space by exact Hc. rewrite IH.
    change (PyStr.lstrip (String " " ?x)) with (PyStr.lstrip x).
    now rewrite lstrip_collapse.
  - rewrite split_word by exact Hc. rewrite join_cons.
    cbn [PyStr.lstrip]. rewrite Hc. rewrite rstrip_cons by exact Hc.
    now rewrite (proj1 (rstrip_collapse s)).
Qed.

(** ** The filename sanitizer *)

Lemma sanitize_filename_as_rules (title : string) :
  sanitize_filename title = SanitizeSpec.sanitize title.
Proof.
  unfold sanitize_filename, SanitizeSpec.sanitize.
  rewrite invalid_chars_loop, join_split, replace_angle_pair.
  unfold SanitizeSpec.remove_colons, SanitizeSpec.slash_to_dash.
  now rewrite !replace_char.
Qed.

(** C6. [sanitize_filename] is the composition of the five rules of the
    specification in their order: the pair [<>] becomes [and], colons are
    deleted, a slash becomes a dash, each of the characters double quote,
    backslash, bar, question mark and star becomes a dash, and every run of
    whitespace is collapsed to one space with the ends trimmed.  On
    [Q3:Plan/Review <> Ops] the result is [Q3Plan-Review and Ops]. *)
Theorem sanitize_filename_rules :
  (∀ title, sanitize_filename title = SanitizeSpec.sanitize title)
  ∧ sanitize_filename "Q3:Plan/Review <> Ops" = "Q3Plan-Review and Ops".
Proof.
  split; [exact sanitize_filename_as_rules | reflexivity].
Qed.

(** *** What the sanitizer does remove *)

Lemma all_chars_app (p : ascii → bool) (a b : string) :
  all_chars p (a +:+ b) = all_chars p a && all_chars p b.
Proof.
  induction a as [|c a IH]; [reflexivity|].
  rewrite append_cons. cbn [all_chars]. now rewrite IH, andb_assoc.
Qed.

Lemma all_chars_each_char (p : ascii → bool) (f : ascii → string) (s : string) :
  (∀ a, all_chars p (f a) = true) → all_chars p (PyStr.each_char f s) = true.
Proof.
  intros Hf. induction s as [|c s IH]; [reflexivity|].
  now rewrite each_char_cons, all_chars_app, Hf, IH.
Qed.

Lemma all_chars_mem (p : ascii → bool) (c : ascii) (s : string) :
  all_chars p s = true → PyStr.mem c s = true → p c = true.
Proof.
  induction s as [|a s IH]; [discriminate|]. cbn [all_chars PyStr.mem].
  intros [Ha Hs]%andb_true_iff [Hc|Hc]%orb_true_iff; [|now apply IH].
  apply Ascii.eqb_eq in Hc. now subst.
Qed.

Lemma all_chars_lstrip (p : ascii → bool) (s : string) :
  all_chars p s = true → all_chars p (PyStr.lstrip s) = true.
Proof.
  induction s as [|c s IH]; [reflexivity|]. cbn [PyStr.lstrip].
  destruct (PyStr.is_space c); [|auto]. cbn [all_chars].
  intros [_ Hs]%andb_true_iff. now apply IH.
Qed.

Lemma all_chars_rstrip (p : ascii → bool) (s : string) :
  all_chars p s = true → all_chars p (PyStr.rstrip s) = true.
Proof.
  induction s as [|c s IH]; [reflexivity|]. cbn [PyStr.rstrip all_chars].
  intros [Hc Hs]%andb_true_iff. specialize (IH Hs).
  destruct (PyStr.rstrip s) as [|c' r].
  - destruct (PyStr.is_space c); [reflexivity|]. cbn. now rewrite Hc.
  - cbn [all_chars] in IH |- *. now rewrite Hc, IH.
Qed.

Lemma all_chars_collapse (in_run : bool) (s : string) :
  all_chars (fun c => negb (Ascii.eqb c ":" || Ascii.eqb c "/"
                            || SanitizeSpec.is_remaining_invalid c)) s = true →
  all_chars (fun c => negb (never_kept c)) (SanitizeSpec.collapse_runs in_run s) = true.
Proof.
  revert in_run. induction s as [|c s IH]; intros in_run; [reflexivity|].
  cbn [all_chars SanitizeSpec.collapse_runs]. intros [Hc Hs]%andb_true_iff.
  destruct (PyStr.is_space c) eqn:Hspace.
  - destruct in_run; [now apply IH|]. cbn [all_chars]. now rewrite IH.
  - cbn [all_chars]. rewrite IH by exact Hs. unfold never_kept.
    rewrite Hspace, andb_false_l, orb_false_r, Hc. reflexivity.
Qed.

(** Whatever the title, the result of the sanitizer holds no colon, no
    slash, none of the five characters of [invalid_chars] and no whitespace
    other than the space. *)
Lemma sanitize_filename_excludes (title : string) (c : ascii) :
  PyStr.mem c (sanitize_filename title) = true → never_kept c = false.
Proof.
  intros Hmem. apply negb_true_iff.
  revert Hmem. apply (all_chars_mem (fun c => negb (never_kept c))).
  rewrite sanitize_filename_as_rules. unfold SanitizeSpec.sanitize.
  unfold SanitizeSpec.collapse_and_trim, PyStr.strip.
  apply all_chars_rstrip, all_chars_lstrip, all_chars_collapse.
  unfold SanitizeSpec.invalid_to_dash, SanitizeSpec.slash_to_dash,
    SanitizeSpec.remove_colons.
  rewrite !each_char_compose. apply all_chars_each_char.
  intros [[] [] [] [] [] [] [] []]; reflexivity.
Qed.

(** C5. The sanitizer keeps an angle bracket that is not part of the pair
    [<>]: the title [a<b] comes back unchanged, and so does [b>c], so the
    result can contain the characters [<] and [>].  The empty title gives the
    empty string. *)
Theorem sanitize_filename_keeps_lone_angle :
  sanitize_filename "a<b" = "a<b"
  ∧ PyStr.mem "<" (sanitize_filename "a<b") = true
  ∧ PyStr.mem ">" (sanitize_filename "b>c") = true
  ∧ sanitize_filename "" = "".
Proof. repeat split; reflexivity. Qed.

(** ** The result monad and dict lookups *)

Lemma bind_ok {A B : Type} (a : A) (f : A → result B) : (Ok a ≫= f) = f a.
Proof. reflexivity. Qed.

Lemma bind_raise {A B : Type} (e : exn) (f : A → result B) :
  (Raise e ≫= f) = Raise e.
Proof. reflexivity. Qed.

Lemma get_dict (d : list (string * value)) (k : string) (dflt : value) :
  Py.get (VDict d) k dflt = Ok (Py.dget d k dflt).
Proof. reflexivity. Qed.

Lemma eq_str_true (v : value) (s : string) : Py.eq_str v s = true ↔ v = VStr s.
Proof.
  destruct v; cbn; try (split; [discriminate | intros [=]]).
  rewrite String.eqb_eq. split; [now intros -> | now intros [= ->]].
Qed.

Lemma eq_str_false (v : value) (s : string) : v ≠ VStr s → Py.eq_str v s = false.
Proof.
  intros Hne. destruct (Py.eq_str v s) eqn:Heq; [|reflexivity].
  apply eq_str_true in Heq. contradiction.
Qed.

(** ** The speaker resolver *)

(** C4. On a segment record, [resolve_speaker_name] always returns, and its
    value depends on the source tag only through three cases: for
    [microphone] the creator's name, or [Me] when that name is empty; for
    [system] the only attendee name when there is exactly one, the label
    [Remote Speaker] when there are more, whatever the names are, and
    [Speaker] when there is none; for any other tag, or none, [Unknown]. *)
Theorem resolve_speaker_name_policy (segment : list (string * value))
    (creator_name : value) (attendee_names : list value) :
  let source := Py.dget segment "source" VNone in
  let resolved := resolve_speaker_name (VDict segment) creator_name attendee_names in
  (source = VStr "microphone" →
     resolved = Ok (if Py.truthy creator_name then creator_name else VStr "Me")
     ∧ ∀ c, creator_name = VStr c →
         resolved = Ok (VStr (if String.eqb c "" then "Me" else c)))
  ∧ (source = VStr "system" →
     resolved = Ok (match attendee_names with
                    | [] => VStr "Speaker"
                    | [only] => only
                    | _ :: _ :: _ => VStr "Remote Speaker"
                    end))
  ∧ (source ≠ VStr "microphone" → source ≠ VStr "system" →
     resolved = Ok (VStr "Unknown")).
Proof.
  intros source resolved. subst resolved.
  unfold resolve_speaker_name. rewrite get_dict, bind_ok. fold source.
  split; [|split].
  - intros ->. cbn [Py.eq_str]. rewrite String.eqb_refl. unfold Py.or.
    split; [reflexivity|]. intros c ->. cbn [Py.truthy].
    destruct (String.eqb c ""); reflexivity.
  - intros ->. cbn. destruct attendee_names as [|a [|b l]]; reflexivity.
  - intros Hmic Hsys. now rewrite !eq_str_false.
Qed.

Lemma resolve_speaker_name_policy_witness :
  resolve_speaker_name (VDict [("source", VStr "microphone")]) (VStr "") []
    = Ok (VStr "Me")
  ∧ resolve_speaker_name (VDict [("source", VStr "system"); ("text", VStr "Hi")])
      (VStr "Max") [VStr "Ann"; VStr "Bob"] = Ok (VStr "Remote Speaker")
  ∧ resolve_speaker_name (VDict [("source", VStr "speaker")]) (VStr "Max")
      [VStr "Ann"] = Ok (VStr "Unknown").
Proof.
  split; [|split].
  - apply (proj2 (proj1 (resolve_speaker_name_policy
                           [("source", VStr "microphone")] (VStr "") [])
                        eq_refl) "" eq_refl).
  - apply (proj1 (proj2 (resolve_speaker_name_policy
                           [("source", VStr "system"); ("text", VStr "Hi")]
                           (VStr "Max") [VStr "Ann"; VStr "Bob"])) eq_refl).
  - apply (proj2 (proj2 (resolve_speaker_name_policy
                           [("source", VStr "speaker")] (VStr "Max") [VStr "Ann"]))).
    + cbn. discriminate.
    + cbn. discriminate.
Defined.

Lemma resolve_speaker_name_total (segment : list (string * value))
    (creator_name : value) (attendee_names : list value) :
  resolve_speaker_name (VDict segment) creator_name attendee_names
  = Ok (speaker_of creator_name attendee_names segment).
Proof.
  unfold speaker_of, resolve_speaker_name. rewrite get_dict, bind_ok.
  repeat match goal with |- context [if ?b then _ else _] => destruct b end;
    reflexivity.
Qed.

(** ** The transcript formatter *)

Lemma transcript_lines_records (segments : list (list (string * value)))
    (creator_name : value) (attendee_names : list value) :
  transcript_lines (List.map VDict segments) creator_name attendee_names
  = Ok (List.map (spoken_line creator_name attendee_names)
          (List.filter has_text segments)).
Proof.
  induction segments as [|segment rest IH]; [reflexivity|].
  cbn [List.map List.filter transcript_lines].
  rewrite get_dict, bind_ok. unfold has_text at 1.
  destruct (Py.truthy (Py.dget segment "text" VNone)); [|exact IH].
  rewrite resolve_speaker_name_total, bind_ok, IH, bind_ok. reflexivity.
Qed.

Lemma format_transcript_records (segments : list (list (string * value)))
    (creator_name : value) (attendee_names : list value) :
  format_transcript (VList (List.map VDict segments)) creator_name attendee_names
  = Ok (match List.filter has_text segments with
        | [] => ""
        | spoken =>
            transcript_heading
            +:+ PyStr.join (PyStr.NL +:+ PyStr.NL)
                  (List.map (spoken_line creator_name attendee_names) spoken)
        end).
Proof.
  unfold format_transcript. destruct segments as [|segment rest]; [reflexivity|].
  change (Py.truthy (VList (List.map VDict (segment :: rest)))) with true.
  cbn [negb Py.iter]. rewrite bind_ok, transcript_lines_records, bind_ok.
  destruct (List.filter has_text (segment :: rest)); reflexivity.
Qed.

(** C7. [format_transcript] returns the empty string when the segments are
    absent, when there is none, and when no segment has a text.  Otherwise
    its result is the break [---] and the heading [## Full Transcript]
    followed by one line [**name**: text] for each segment that has a text,
    in the order of the input and separated by blank lines, where [name] is
    what [resolve_speaker_name] returns for the segment. *)
Theorem format_transcript_shape (segments : list (list (string * value)))
    (creator_name : value) (attendee_names : list value) :
  format_transcript VNone creator_name attendee_names = Ok ""
  ∧ format_transcript (VList (List.map VDict segments)) creator_name attendee_names
    = Ok (match List.filter has_text segments with
          | [] => ""
          | spoken =>
              PyStr.NL +:+ PyStr.NL +:+ "---" +:+ PyStr.NL +:+ "## Full Transcript"
              +:+ PyStr.NL +:+ PyStr.NL
              +:+ PyStr.join (PyStr.NL +:+ PyStr.NL)
                    (List.map (fun segment =>
                       "**" +:+ Py.str (speaker_of creator_name attendee_names segment)
                       +:+ "**: " +:+ Py.str (Py.dget segment "text" VNone)) spoken)
          end)
  ∧ (∀ segment,
       resolve_speaker_name (VDict segment) creator_name attendee_names
       = Ok (speaker_of creator_name attendee_names segment)).
Proof.
  split; [reflexivity|]. split; [|intros; apply resolve_speaker_name_total].
  rewrite format_transcript_records.
  destruct (List.filter has_text segments); reflexivity.
Qed.

Example format_transcript_two :
  format_transcript
    (VList [VDict [("source", VStr "microphone"); ("text", VStr "Hi")];
            VDict [("source", VStr "system"); ("text", VStr "")];
            VDict [("source", VStr "system"); ("text", VStr "Hello")]])
    (VStr "Max") [VStr "Ann"]
  = Ok (PyStr.NL +:+ PyStr.NL +:+ "---" +:+ PyStr.NL +:+ "## Full Transcript"
        +:+ PyStr.NL +:+ PyStr.NL +:+ "**Max**: Hi" +:+ PyStr.NL +:+ PyStr.NL
        +:+ "**Ann**: Hello").
Proof. reflexivity. Qed.

(** ** The rich-text converter *)

Lemma parse_prosemirror_record (node : list (string * value)) :
  parse_prosemirror (VDict node)
  = (child_text ← children_text parse_prosemirror node; render_node node child_text).
Proof. reflexivity. Qed.

Lemma render_chars (s : string) :
  (parts ← mapM parse_prosemirror (Py.chars s); Py.join_empty parts) = Ok "".
Proof.
  induction s as [|c s IH]; [reflexivity|].
  cbn [Py.chars mapM]. change (parse_prosemirror (VStr (String c ""))) with (Ok (VStr "")).
  rewrite bind_ok. destruct (mapM parse_prosemirror (Py.chars s)) as [parts|e];
    [|discriminate IH].
  cbn in IH |- *. now rewrite IH.
Qed.

Lemma render_keys (d : list (string * value)) :
  (parts ← mapM parse_prosemirror (List.map (fun kv => VStr (fst kv)) d);
   Py.join_empty parts) = Ok "".
Proof.
  induction d as [|[k v] d IH]; [reflexivity|].
  cbn [List.map mapM fst]. change (parse_prosemirror (VStr k)) with (Ok (VStr "")).
  rewrite bind_ok.
  destruct (mapM parse_prosemirror (List.map (fun kv => VStr (fst kv)) d))
    as [parts|e]; [|discriminate IH].
  cbn in IH |- *. now rewrite IH.
Qed.

(** [children_text] is the line of the source that joins the rendered
    children of the node's content. *)
Lemma children_text_source (node : list (string * value)) :
  children_text parse_prosemirror node
  = (content ← Py.iter (Py.dget node "content" (VList []));
     parts ← mapM parse_prosemirror content;
     Py.join_empty parts).
Proof.
  induction node as [|[k v] node IH]; [reflexivity|].
  unfold Py.dget. cbn [children_text Py.lookup].
  destruct (String.eqb k "content"); [|exact IH].
  cbn [default id]. destruct v; try reflexivity.
  - cbn [Py.iter]. rewrite bind_ok. symmetry. apply render_chars.
  - cbn [Py.iter]. rewrite bind_ok. symmetry. apply render_keys.
Qed.

Lemma apply_marks_before_link (before : list (list (string * value)))
    (rest : list value) (text : value) :
  Forall (fun mark => Py.dget mark "type" VNone ≠ VStr "link") before →
  apply_marks (List.map VDict before ++ rest) text
  = apply_marks rest (decorate before text).
Proof.
  intros Hbefore. revert text.
  induction Hbefore as [|mark before Hmark _ IH]; intros text; [reflexivity|].
  cbn [List.map app apply_marks decorate fold_left].
  rewrite (get_dict mark "type"), bind_ok. unfold wrap_mark.
  destruct (Py.eq_str (Py.dget mark "type" VNone) "bold"); [apply IH|].
  destruct (Py.eq_str (Py.dget mark "type" VNone) "italic"); [apply IH|].
  destruct (Py.eq_str (Py.dget mark "type" VNone) "code"); [apply IH|].
  rewrite (eq_str_false _ _ Hmark). apply IH.
Qed.

Lemma apply_marks_link (link attrs : list (string * value)) (after : list value)
    (text : value) :
  Py.dget link "type" VNone = VStr "link" →
  Py.dget link "attrs" (VDict []) = VDict attrs →
  apply_marks (VDict link :: after) text
  = Ok (VStr ("[" +:+ Py.str text +:+ "](" +:+
              Py.str (Py.dget attrs "href" (VStr "")) +:+ ")")).
Proof.
  intros Htype Hattrs. cbn [apply_marks].
  rewrite (get_dict link "type"), bind_ok, Htype.
  rewrite (get_dict link "attrs"), bind_ok, Hattrs. reflexivity.
Qed.

(** C1, as the code has it.  A text node whose marks are records, one of
    them a link mark with a record (or nothing) as attributes, renders as
    [[label](href)]: [href] is the href attribute of the first link mark, the
    empty string when it is absent, and [label] is the node's text wrapped by
    the bold, italic and code marks that come before that link mark, in
    their order.  The marks after the link mark are not applied.  When the
    link mark comes first, the label is the text itself. *)
Theorem text_node_link (node : list (string * value))
    (before : list (list (string * value))) (link attrs : list (string * value))
    (after : list value) (child_text : string) :
  Py.dget node "type" (VStr "") = VStr "text" →
  children_text parse_prosemirror node = Ok child_text →
  Py.dget node "marks" (VList []) = VList (List.map VDict before ++ VDict link :: after) →
  Forall (fun mark => Py.dget mark "type" VNone ≠ VStr "link") before →
  Py.dget link "type" VNone = VStr "link" →
  Py.dget link "attrs" (VDict []) = VDict attrs →
  let text := Py.dget node "text" (VStr "") in
  let href := Py.dget attrs "href" (VStr "") in
  parse_prosemirror (VDict node)
  = Ok (VStr ("[" +:+ Py.str (decorate before text) +:+ "](" +:+ Py.str href +:+ ")"))
  ∧ (before = [] →
     parse_prosemirror (VDict node)
     = Ok (VStr ("[" +:+ Py.str text +:+ "](" +:+ Py.str href +:+ ")"))).
Proof.
  intros Htype Hchildren Hmarks Hbefore Hlink Hattrs text href.
  assert (parse_prosemirror (VDict node)
          = Ok (VStr ("[" +:+ Py.str (decorate before text) +:+ "](" +:+
                      Py.str href +:+ ")"))) as Hrender.
  { rewrite parse_prosemirror_record, Hchildren, bind_ok.
    unfold render_node. rewrite Htype, Hmarks. cbn [Py.eq_str String.eqb Py.iter].
    change (Py.eq_str (VStr "text") "doc") with false.
    cbn -[apply_marks Py.str decorate].
    rewrite (apply_marks_before_link _ _ _ Hbefore).
    now rewrite (apply_marks_link link attrs). }
  split; [exact Hrender|]. intros ->. exact Hrender.
Qed.

Lemma text_node_link_witness :
  parse_prosemirror
    (VDict [("type", VStr "text"); ("text", VStr "notes");
            ("marks", VList [VDict [("type", VStr "italic")];
                             VDict [("type", VStr "link");
                                    ("attrs", VDict [("href", VStr "https://a.b/c")])];
                             VDict [("type", VStr "bold")]])])
  = Ok (VStr "[*notes*](https://a.b/c)").
Proof.
  destruct (text_node_link
    [("type", VStr "text"); ("text", VStr "notes");
     ("marks", VList [VDict [("type", VStr "italic")];
                      VDict [("type", VStr "link");
                             ("attrs", VDict [("href", VStr "https://a.b/c")])];
                      VDict [("type", VStr "bold")]])]
    [[("type", VStr "italic")]]
    [("type", VStr "link"); ("attrs", VDict [("href", VStr "https://a.b/c")])]
    [("href", VStr "https://a.b/c")]
    [VDict [("type", VStr "bold")]] "") as [Hrender _].
  - reflexivity.
  - reflexivity.
  - reflexivity.
  - repeat constructor. discriminate.
  - reflexivity.
  - reflexivity.
  - exact Hrender.
Defined.

(** The claim C1 as it is written fails on its own example: a bold mark in
    front of the link mark wraps the text inside the label. *)
Lemma bold_before_link_is_kept :
  parse_prosemirror
    (VDict [("type", VStr "text"); ("text", VStr "text");
            ("marks", VList [VDict [("type", VStr "bold")];
                             VDict [("type", VStr "link");
                                    ("attrs", VDict [("href", VStr "href")])]])])
  = Ok (VStr "[**text**](href)")
  ∧ parse_prosemirror
      (VDict [("type", VStr "text"); ("text", VStr "text");
              ("marks", VList [VDict [("type", VStr "bold")];
                               VDict [("type", VStr "link");
                                      ("attrs", VDict [("href", VStr "href")])]])])
    ≠ Ok (VStr "[text](href)").
Proof. split; [reflexivity | discriminate]. Qed.

Example link_without_href :
  parse_prosemirror
    (VDict [("type", VStr "text"); ("text", VStr "x");
            ("marks", VList [VDict [("type", VStr "link")]])])
  = Ok (VStr "[x]()").
Proof. reflexivity. Qed.

Example heading_level_two :
  parse_prosemirror
    (VDict [("type", VStr "heading"); ("attrs", VDict [("level", VInt 2)])])
  = Ok (VStr ("## " +:+ PyStr.NL +:+ PyStr.NL)).
Proof. reflexivity. Qed.

(** ** The people extractor *)

Lemma attendee_name_unresolved (att : list (string * value)) (name_obj : value) :
  name_obj_of (VDict att) = Ok name_obj →
  no_resolvable_name name_obj = true →
  attendee_name (VDict att) = Ok (Py.dget att "email" VNone).
Proof.
  intros Hobj Hnone. unfold attendee_name.
  rewrite get_dict, bind_ok, Hobj, bind_ok.
  destruct name_obj; try reflexivity; [discriminate Hnone|].
  cbn in Hnone. rewrite get_dict, bind_ok.
  now destruct (Py.truthy (Py.dget d "fullName" VNone)).
Qed.

(** C9. When the people record of a document lists exactly one attendee, a
    record that has no email and whose nested name gives neither a non-empty
    [fullName] nor a plain string, [extract_people] returns that attendee
    with the name [None]; [resolve_speaker_name] on a segment whose source is
    [system] then returns [None] for the one-name list, and
    [format_transcript] writes the segment's line as [**None**: text]. *)
Theorem unnamed_attendee_is_None
    (doc people_data creator_record att segment : list (string * value))
    (name_obj creator_name : value) :
  Py.dget doc "people" VNone = VDict people_data →
  Py.or (Py.dget people_data "creator" VNone) (VDict []) = VDict creator_record →
  Py.dget people_data "attendees" VNone = VList [VDict att] →
  Py.dget att "email" VNone = VNone →
  name_obj_of (VDict att) = Ok name_obj →
  no_resolvable_name name_obj = true →
  Py.dget segment "source" VNone = VStr "system" →
  Py.truthy (Py.dget segment "text" VNone) = true →
  ∃ ps,
    extract_people (VDict doc) = Ok ps
    ∧ attendees ps = [{| name := VNone; email := VNone |}]
    ∧ resolve_speaker_name (VDict segment) creator_name (List.map name (attendees ps))
      = Ok VNone
    ∧ format_transcript (VList [VDict segment]) creator_name
        (List.map name (attendees ps))
      = Ok (PyStr.NL +:+ PyStr.NL +:+ "---" +:+ PyStr.NL +:+ "## Full Transcript"
            +:+ PyStr.NL +:+ PyStr.NL +:+ "**None**: "
            +:+ Py.str (Py.dget segment "text" VNone)).
Proof.
  intros Hpeople Hcreator Hattendees Hemail Hobj Hnone Hsource Htext.
  assert (resolve_speaker_name (VDict segment) creator_name [VNone] = Ok VNone)
    as Hresolve.
  { unfold resolve_speaker_name. now rewrite get_dict, bind_ok, Hsource. }
  eexists. split; [|split; [|split]].
  - unfold extract_people.
    rewrite get_dict, bind_ok, Hpeople.
    replace (Py.or (VDict people_data) (VDict [])) with (VDict people_data)
      by (unfold Py.or; now destruct people_data).
    rewrite (get_dict people_data "creator"), bind_ok, Hcreator.
    rewrite (get_dict creator_record "name"), bind_ok.
    rewrite (get_dict creator_record "email"), bind_ok.
    rewrite (get_dict people_data "attendees"), bind_ok, Hattendees.
    cbn [Py.or Py.truthy Py.iter]. rewrite bind_ok.
    cbn [extract_attendees].
    rewrite (attendee_name_unresolved att name_obj Hobj Hnone), bind_ok.
    rewrite get_dict, !bind_ok, Hemail. reflexivity.
  - reflexivity.
  - exact Hresolve.
  - cbn [attendees List.map name].
    pose proof (format_transcript_records [segment] creator_name [VNone]) as Hformat.
    cbn [List.map] in Hformat. rewrite Hformat.
    cbn [List.filter]. unfold has_text. rewrite Htext. cbn [List.map PyStr.join].
    unfold spoken_line, speaker_of. rewrite Hresolve. reflexivity.
Qed.

Lemma unnamed_attendee_is_None_witness :
  ∃ ps,
    extract_people
      (VDict [("id", VStr "d1");
              ("people", VDict [("attendees", VList [VDict [("details", VDict [])]])])])
    = Ok ps
    ∧ attendees ps = [{| name := VNone; email := VNone |}]
    ∧ resolve_speaker_name (VDict [("source", VStr "system"); ("text", VStr "Hello")])
        (VStr "Me") (List.map name (attendees ps)) = Ok VNone
    ∧ format_transcript (VList [VDict [("source", VStr "system"); ("text", VStr "Hello")]])
        (VStr "Me") (List.map name (attendees ps))
      = Ok (PyStr.NL +:+ PyStr.NL +:+ "---" +:+ PyStr.NL +:+ "## Full Transcript"
            +:+ PyStr.NL +:+ PyStr.NL +:+ "**None**: Hello").
Proof.
  apply (unnamed_attendee_is_None
    [("id", VStr "d1");
     ("people", VDict [("attendees", VList [VDict [("details", VDict [])]])])]
    [("attendees", VList [VDict [("details", VDict [])]])]
    [] [("details", VDict [])]
    [("source", VStr "system"); ("text", VStr "Hello")]
    (VDict []) (VStr "Me")); reflexivity.
Defined.

(** ** The frontmatter *)

Lemma occurs_in_refl (s : string) : occurs_in s s.
Proof. exists "", "". now rewrite append_nil_r. Qed.

Lemma occurs_in_middle (pre sub post : string) : occurs_in sub (pre +:+ sub +:+ post).
Proof. now exists pre, post. Qed.

Lemma occurs_in_trans (a b c : string) : occurs_in a b → occurs_in b c → occurs_in a c.
Proof.
  intros (p1 & q1 & ->) (p2 & q2 & ->). exists (p2 +:+ p1), (q1 +:+ q2).
  now rewrite !append_assoc.
Qed.

Lemma occurs_in_prefix (sub post : string) : occurs_in sub (sub +:+ post).
Proof. now exists "", post. Qed.

Lemma occurs_in_app_r (sub pre s : string) : occurs_in sub s → occurs_in sub (pre +:+ s).
Proof. intros (p & q & ->). exists (pre +:+ p), q. now rewrite !append_assoc. Qed.

Lemma occurs_in_app_l (sub s post : string) : occurs_in sub s → occurs_in sub (s +:+ post).
Proof. intros (p & q & ->). exists p, (q +:+ post). now rewrite !append_assoc. Qed.

Lemma entry_name_line (p : person) :
  occurs_in ("  - name: " +:+ PyStr.DQ +:+ Py.str (name p) +:+ PyStr.DQ +:+ PyStr.NL)
    (participant_entry p).
Proof.
  exists "", (if Py.truthy (email p)
              then "    email: " +:+ PyStr.DQ +:+ Py.str (email p) +:+ PyStr.DQ +:+ PyStr.NL
              else "").
  unfold participant_entry. now rewrite !append_assoc.
Qed.

Lemma entry_email_line (p : person) :
  Py.truthy (email p) = true →
  occurs_in ("    email: " +:+ PyStr.DQ +:+ Py.str (email p) +:+ PyStr.DQ +:+ PyStr.NL)
    (participant_entry p).
Proof.
  intros Hemail.
  exists ("  - name: " +:+ PyStr.DQ +:+ Py.str (name p) +:+ PyStr.DQ +:+ PyStr.NL), "".
  unfold participant_entry. rewrite Hemail. now rewrite !append_assoc, !append_nil_r.
Qed.

Lemma entries_contain (p : person) (l : list person) :
  In p l → occurs_in (participant_entry p) (PyStr.concat (List.map participant_entry l)).
Proof.
  induction l as [|q l IH]; intros Hin; [destruct Hin|].
  cbn [List.map PyStr.concat]. destruct Hin as [->|Hin].
  - apply occurs_in_prefix.
  - apply occurs_in_app_r, IH, Hin.
Qed.

Lemma frontmatter_entries (doc_id created_at_str : value) (safe_title : string)
    (ps : people) (p : person) :
  In p (creator ps :: attendees ps) →
  occurs_in (participant_entry p) (frontmatter doc_id safe_title created_at_str ps).
Proof.
  intros Hin. unfold frontmatter. do 15 apply occurs_in_app_r.
  destruct Hin as [<-|Hin].
  - apply occurs_in_prefix.
  - apply occurs_in_app_r, occurs_in_app_l, entries_contain, Hin.
Qed.

(** In the frontmatter, the title line holds the escaped title and every
    participant's name and email lines hold the name and the email as they
    are. *)
Lemma frontmatter_lines (doc_id created_at_str : value) (title : string)
    (ps : people) :
  let fm := frontmatter doc_id (escape_title title) created_at_str ps in
  escape_title title
  = PyStr.each_char (fun c => if Ascii.eqb c PyStr.dquote
                              then String PyStr.bslash PyStr.DQ
                              else String c "") title
  ∧ occurs_in ("title: " +:+ PyStr.DQ +:+ escape_title title +:+ PyStr.DQ +:+ PyStr.NL) fm
  ∧ (∀ p, In p (creator ps :: attendees ps) →
       occurs_in ("  - name: " +:+ PyStr.DQ +:+ Py.str (name p) +:+ PyStr.DQ +:+ PyStr.NL) fm
       ∧ (Py.truthy (email p) = true →
          occurs_in ("    email: " +:+ PyStr.DQ +:+ Py.str (email p) +:+ PyStr.DQ
                     +:+ PyStr.NL) fm)).
Proof.
  intros fm. split; [apply replace_char|]. split.
  - subst fm. unfold frontmatter.
    eexists ("---" +:+ PyStr.NL +:+ "granola_id: " +:+ Py.str doc_id +:+ PyStr.NL), _.
    rewrite !append_assoc. reflexivity.
  - intros p Hin. split.
    + eapply occurs_in_trans; [apply entry_name_line|].
      now apply frontmatter_entries.
    + intros Hemail. eapply occurs_in_trans; [now apply entry_email_line|].
      now apply frontmatter_entries.
Qed.

(** ** The sync step *)

Lemma M_bind_unfold {A B : Type} (m : M A) (f : A → M B) (w : world) :
  (m ≫= f) w
  = match m w with
    | (Ok a, w') => f a w'
    | (Raise e, w') => (Raise e, w')
    end.
Proof. reflexivity. Qed.

Lemma lift_bind {A B : Type} (r : result A) (f : A → M B) (w : world) :
  (lift r ≫= f) w = match r with Ok a => f a w | Raise e => (Raise e, w) end.
Proof. destruct r; reflexivity. Qed.

Lemma path_exists_true (path : string) (w : world) :
  exists_at w path → path_exists path w = (Ok true, w).
Proof. intros Hex. unfold path_exists. now rewrite bool_decide_eq_true_2. Qed.

Lemma path_exists_false (path : string) (w : world) :
  ¬ exists_at w path → path_exists path w = (Ok false, w).
Proof. intros Hex. unfold path_exists. now rewrite bool_decide_eq_false_2. Qed.

Lemma length_append (a b : string) :
  String.length (a +:+ b) = (String.length a + String.length b)%nat.
Proof.
  induction a as [|c a IH]; [reflexivity|].
  rewrite append_cons. cbn [String.length]. now rewrite IH.
Qed.

Lemma is_Some_insert (files : gmap string string) (filepath content path : string) :
  is_Some (files !! path) → is_Some (<[filepath := content]> files !! path).
Proof.
  intros Hsome. destruct (decide (filepath = path)) as [->|Hne].
  - rewrite lookup_insert_eq. eauto.
  - now rewrite lookup_insert_ne.
Qed.

(** A file in a folder is not the folder. *)
Lemma path_of_neq (target_dir filename : string) : path_of target_dir filename ≠ target_dir.
Proof.
  intros Heq. apply (f_equal String.length) in Heq.
  unfold path_of in Heq. rewrite !length_append in Heq. cbn in Heq. lia.
Qed.

Lemma ensure_dir_present (E : env) (target_dir : string) (w : world) :
  exists_at w target_dir → ensure_dir E target_dir w = (Ok true, w).
Proof.
  intros Hex. unfold ensure_dir.
  now rewrite M_bind_unfold, path_exists_true.
Qed.

Lemma target_inv (E : env) (d : list (string * value)) (target_dir filename : string) :
  target E (VDict d) = Ok (target_dir, filename) →
  ∃ parts name,
    date_parts E (Py.dget d "created_at" (VStr "")) = Ok parts
    ∧ str_receiver (Py.dget d "title" (VStr "Untitled")) = Ok name
    ∧ target_dir = parts.2
    ∧ filename = parts.1 +:+ " " +:+ sanitize_filename name +:+ ".md".
Proof.
  unfold target. rewrite (get_dict d "title"), bind_ok, (get_dict d "created_at"), bind_ok.
  destruct (date_parts E _) as [parts|e]; [|discriminate]. rewrite bind_ok.
  destruct (str_receiver _) as [name|e]; [|discriminate]. rewrite bind_ok.
  intros [= <- <-]. now exists parts, name.
Qed.

Lemma sync_document_skip (E : env) (d : list (string * value)) (token : string)
    (w : world) (target_dir filename : string) :
  Py.truthy (Py.dget d "id" VNone) = true →
  target E (VDict d) = Ok (target_dir, filename) →
  exists_at w target_dir →
  exists_at w (path_of target_dir filename) →
  sync_document E (VDict d) token w
  = (Ok true, {| files := files w; dirs := dirs w; fetched := fetched w;
                 log := log w ++ [SkippingExisting filename] |}).
Proof.
  intros Hid Htarget Hdir Hfile.
  destruct (target_inv E d target_dir filename Htarget)
    as (parts & name & Hparts & Hname & -> & ->).
  unfold sync_document.
  rewrite lift_bind, get_dict, lift_bind, get_dict, lift_bind, get_dict.
  rewrite Hid. cbn [negb]. rewrite lift_bind, Hparts.
  rewrite M_bind_unfold, (ensure_dir_present E _ w Hdir). cbn [negb].
  rewrite lift_bind, Hname. rewrite M_bind_unfold.
  rewrite (path_exists_true _ w Hfile). reflexivity.
Qed.

Lemma ensure_dir_ok (E : env) (target_dir : string) (w : world) :
  exists_at w target_dir ∨ mkdir_ok E target_dir = true →
  ∃ w1, ensure_dir E target_dir w = (Ok true, w1)
        ∧ files w1 = files w ∧ fetched w1 = fetched w ∧ log w1 = log w
        ∧ exists_at w1 target_dir
        ∧ (∀ path, exists_at w1 path → exists_at w path ∨ path = target_dir).
Proof.
  intros Hdir. destruct (decide (exists_at w target_dir)) as [Hin|Hout].
  - exists w. rewrite ensure_dir_present by exact Hin. auto 10.
  - destruct Hdir as [Hin|Hmk]; [contradiction|].
    eexists. unfold ensure_dir. rewrite M_bind_unfold, path_exists_false by exact Hout.
    rewrite M_bind_unfold. unfold mkdir. rewrite Hmk.
    split; [reflexivity|]. cbn. repeat split; try reflexivity.
    + left. cbn. set_solver.
    + intros path [Hin|Hfile]; cbn in *; [|left; now right].
      apply elem_of_union in Hin as [Hin|Hin]; [right; set_solver | left; now left].
Qed.

Lemma fetch_transcript_request (E : env) (token : string) (doc_id : value) (w : world) :
  ∃ w1, fetch_transcript E token doc_id w
        = (Ok (match post_transcript E token doc_id with
               | Json body => body
               | _ => VNone
               end), w1)
        ∧ files w1 = files w ∧ dirs w1 = dirs w
        ∧ fetched w1 = (fetched w ++ [doc_id])%list.
Proof.
  unfold fetch_transcript. rewrite M_bind_unfold. cbn [request_sent].
  destruct (post_transcript E token doc_id); eexists; (split; [reflexivity|]);
    cbn; auto.
Qed.

(** A document that has an id and nothing at its target path yet, in an
    environment where the folder can be made and the file written, is saved
    at its target path with the frontmatter, the notes and the transcript
    block as content. *)
Lemma sync_document_download (E : env) (d : list (string * value)) (token : string)
    (w : world) (target_dir filename title notes transcript_text : string)
    (ps : people) :
  Py.truthy (Py.dget d "id" VNone) = true →
  target E (VDict d) = Ok (target_dir, filename) →
  Py.dget d "title" (VStr "Untitled") = VStr title →
  exists_at w target_dir ∨ mkdir_ok E target_dir = true →
  ¬ exists_at w (path_of target_dir filename) →
  markdown_notes_of (VDict d) = Ok (VStr notes) →
  extract_people (VDict d) = Ok ps →
  format_transcript
    (match post_transcript E token (Py.dget d "id" VNone) with
     | Json body => body
     | _ => VNone
     end) (name (creator ps)) (List.map name (attendees ps)) = Ok transcript_text →
  write_file_outcome E (path_of target_dir filename)
    ((frontmatter (Py.dget d "id" VNone) (escape_title title)
        (Py.dget d "created_at" (VStr "")) ps +:+ notes) +:+ transcript_text)
  = Written →
  ∃ w', sync_document E (VDict d) token w = (Ok true, w')
        ∧ files w'
          = <[path_of target_dir filename :=
                (frontmatter (Py.dget d "id" VNone) (escape_title title)
                   (Py.dget d "created_at" (VStr "")) ps +:+ notes) +:+ transcript_text]>
              (files w)
        ∧ fetched w' = (fetched w ++ [Py.dget d "id" VNone])%list
        ∧ exists_at w' target_dir.
Proof.
  intros Hid Htarget Htitle Hdir Hfile Hnotes Hpeople Hformat Hwrite.
  destruct (target_inv E d target_dir filename Htarget)
    as (parts & name & Hparts & Hname & Hdir_eq & Hfile_eq).
  rewrite Htitle in Hname. injection Hname as <-.
  destruct (ensure_dir_ok E _ w Hdir) as (w1 & Hensure & Hf1 & Hr1 & Hl1 & Hd1 & Hnew).
  assert (¬ exists_at w1 (path_of target_dir filename)) as Hfile1.
  { intros Hex. apply Hnew in Hex as [Hex|Hex]; [now apply Hfile|].
    now apply path_of_neq in Hex. }
  unfold sync_document.
  rewrite lift_bind, get_dict, lift_bind, get_dict, lift_bind, get_dict.
  rewrite Hid. cbn [negb]. rewrite lift_bind, Hparts.
  rewrite M_bind_unfold. rewrite <- Hdir_eq, Hensure. cbn [negb].
  rewrite Htitle, lift_bind. cbn [str_receiver]. rewrite M_bind_unfold.
  rewrite <- Hfile_eq, (path_exists_false _ w1 Hfile1).
  unfold download_document. rewrite M_bind_unfold. cbn [logger].
  rewrite lift_bind, Hnotes. rewrite M_bind_unfold.
  match goal with |- context [fetch_transcript E token ?i ?w0] =>
    destruct (fetch_transcript_request E token i w0) as (w2 & -> & Hf2 & Hd2 & Hr2)
  end.
  rewrite lift_bind, Hpeople, lift_bind, Hformat, lift_bind. cbn [str_receiver].
  rewrite lift_bind. cbn [str_add]. rewrite M_bind_unfold. unfold write_file.
  rewrite Hwrite. eexists. split; [reflexivity|]. cbn.
  cbn in Hf2, Hd2, Hr2. rewrite Hf2, Hr2, Hf1, Hr1. repeat split.
  destruct Hd1 as [Hd1|Hd1]; [left | right]; cbn.
  - now rewrite Hd2.
  - apply is_Some_insert. now rewrite <- Hf1.
Qed.
(** C3. The document with id [d1], title [Team Sync], creation time
    [2025-03-04T10:00:00Z], a panel without notes, the creator [Me] and no
    attendee, whose transcript is the single microphone segment [Hi], is
    written to [2025/2025-03-04 Team Sync.md]; the file holds the
    frontmatter, with the line [granola_id: d1], followed by the transcript
    section whose only line is [**Me**: Hi]. *)
Theorem team_sync_end_to_end (E : env) (token : string) (w : world) (panel : value) :
  fromisoformat E "2025-03-04T10:00:00+00:00"
    = Some {| year := 2025; month := 3; day := 4 |} →
  post_transcript E token (VStr "d1")
    = Json (VList [VDict [("source", VStr "microphone"); ("text", VStr "Hi")]]) →
  markdown_notes_of (team_sync_doc panel) = Ok (VStr "") →
  exists_at w "2025" ∨ mkdir_ok E "2025" = true →
  ¬ exists_at w "2025/2025-03-04 Team Sync.md" →
  (∀ content, write_file_outcome E "2025/2025-03-04 Team Sync.md" content = Written) →
  ∃ w',
    sync_document E (team_sync_doc panel) token w = (Ok true, w')
    ∧ files w' !! "2025/2025-03-04 Team Sync.md"
      = Some ("---" +:+ PyStr.NL
              +:+ "granola_id: d1" +:+ PyStr.NL
              +:+ "title: " +:+ PyStr.DQ +:+ "Team Sync" +:+ PyStr.DQ +:+ PyStr.NL
              +:+ "created_at: 2025-03-04T10:00:00Z" +:+ PyStr.NL
              +:+ "participants:" +:+ PyStr.NL
              +:+ "  - name: " +:+ PyStr.DQ +:+ "Me" +:+ PyStr.DQ +:+ PyStr.NL
              +:+ "---" +:+ PyStr.NL +:+ PyStr.NL
              +:+ PyStr.NL +:+ PyStr.NL +:+ "---" +:+ PyStr.NL
              +:+ "## Full Transcript" +:+ PyStr.NL +:+ PyStr.NL
              +:+ "**Me**: Hi")
    ∧ fetched w' = (fetched w ++ [VStr "d1"])%list.
Proof.
  intros Hparse Hresponse Hnotes Hdir Hfile Hwrite.
  destruct (sync_document_download E
              [("id", VStr "d1"); ("title", VStr "Team Sync");
               ("created_at", VStr "2025-03-04T10:00:00Z");
               ("last_viewed_panel", panel);
               ("people", VDict [("creator", VDict [("name", VStr "Me")]);
                                 ("attendees", VList [])])]
              token w "2025" "2025-03-04 Team Sync.md" "Team Sync" ""
              (PyStr.NL +:+ PyStr.NL +:+ "---" +:+ PyStr.NL
               +:+ "## Full Transcript" +:+ PyStr.NL +:+ PyStr.NL +:+ "**Me**: Hi")
              {| creator := {| name := VStr "Me"; email := VNone |};
                 attendees := [] |})
    as (w' & Hrun & Hfiles & Hfetched & _).
  - reflexivity.
  - unfold target. cbn [Py.get Py.dget Py.lookup String.eqb Ascii.eqb Bool.eqb default id].
    rewrite !bind_ok. unfold date_parts. cbn [Py.truthy String.eqb negb str_receiver].
    rewrite bind_ok.
    change (PyStr.replace "Z" "+00:00" "2025-03-04T10:00:00Z")
      with "2025-03-04T10:00:00+00:00".
    rewrite Hparse. reflexivity.
  - reflexivity.
  - exact Hdir.
  - exact Hfile.
  - exact Hnotes.
  - reflexivity.
  - cbn [Py.dget Py.lookup String.eqb Ascii.eqb Bool.eqb default id].
    rewrite Hresponse. reflexivity.
  - apply Hwrite.
  - exists w'. split; [exact Hrun|]. split; [|exact Hfetched].
    rewrite Hfiles. apply lookup_insert_eq.
Qed.

Lemma team_sync_end_to_end_witness :
  ∃ w',
    sync_document example_env (team_sync_doc (VDict [])) "token" empty_world = (Ok true, w')
    ∧ files w' !! "2025/2025-03-04 Team Sync.md"
      = Some ("---" +:+ PyStr.NL
              +:+ "granola_id: d1" +:+ PyStr.NL
              +:+ "title: " +:+ PyStr.DQ +:+ "Team Sync" +:+ PyStr.DQ +:+ PyStr.NL
              +:+ "created_at: 2025-03-04T10:00:00Z" +:+ PyStr.NL
              +:+ "participants:" +:+ PyStr.NL
              +:+ "  - name: " +:+ PyStr.DQ +:+ "Me" +:+ PyStr.DQ +:+ PyStr.NL
              +:+ "---" +:+ PyStr.NL +:+ PyStr.NL
              +:+ PyStr.NL +:+ PyStr.NL +:+ "---" +:+ PyStr.NL
              +:+ "## Full Transcript" +:+ PyStr.NL +:+ PyStr.NL
              +:+ "**Me**: Hi")
    ∧ fetched w' = (fetched empty_world ++ [VStr "d1"])%list.
Proof.
  apply (team_sync_end_to_end example_env "token" empty_world (VDict [])).
  - reflexivity.
  - reflexivity.
  - reflexivity.
  - right. reflexivity.
  - intros [Hdir|[content Hfile]]; [set_solver | discriminate Hfile].
  - intros content. reflexivity.
Defined.

Lemma date_parts_sentinel (E : env) (d : list (string * value)) :
  Py.lookup d "created_at" = None
  ∨ Py.lookup d "created_at" = Some VNone
  ∨ (∃ s, Py.lookup d "created_at" = Some (VStr s)
          ∧ (s = "" ∨ fromisoformat E (PyStr.replace "Z" "+00:00" s) = None)) →
  date_parts E (Py.dget d "created_at" (VStr "")) = Ok ("0000-00-00", "Unknown_Year").
Proof.
  unfold Py.dget. intros [->|[->|(s & -> & [->|Hparse])]]; try reflexivity.
  cbn [default id]. unfold date_parts. destruct (Py.truthy (VStr s)); [|reflexivity].
  cbn [str_receiver]. now rewrite bind_ok, Hparse.
Qed.

(** C8. A document whose creation timestamp is absent, or is a string that
    the timestamp parser rejects, gets the date prefix [0000-00-00] and the
    year folder [Unknown_Year]: computing them raises nothing, the target of
    the document is [Unknown_Year/0000-00-00 <sanitized title>.md], and when
    the rest of the step succeeds the file is written there and
    [sync_document] returns success. *)
Theorem missing_timestamp_uses_sentinel (E : env) (d : list (string * value))
    (token title : string) :
  Py.dget d "title" (VStr "Untitled") = VStr title →
  Py.lookup d "created_at" = None
  ∨ Py.lookup d "created_at" = Some VNone
  ∨ (∃ s, Py.lookup d "created_at" = Some (VStr s)
          ∧ (s = "" ∨ fromisoformat E (PyStr.replace "Z" "+00:00" s) = None)) →
  date_parts E (Py.dget d "created_at" (VStr "")) = Ok ("0000-00-00", "Unknown_Year")
  ∧ target E (VDict d)
    = Ok ("Unknown_Year", "0000-00-00 " +:+ sanitize_filename title +:+ ".md")
  ∧ (∀ w notes ps transcript_text,
       Py.truthy (Py.dget d "id" VNone) = true →
       exists_at w "Unknown_Year" ∨ mkdir_ok E "Unknown_Year" = true →
       ¬ exists_at w ("Unknown_Year/0000-00-00 " +:+ sanitize_filename title +:+ ".md") →
       markdown_notes_of (VDict d) = Ok (VStr notes) →
       extract_people (VDict d) = Ok ps →
       format_transcript
         (match post_transcript E token (Py.dget d "id" VNone) with
          | Json body => body
          | _ => VNone
          end) (name (creator ps)) (List.map name (attendees ps)) = Ok transcript_text →
       (∀ content,
          write_file_outcome E
            ("Unknown_Year/0000-00-00 " +:+ sanitize_filename title +:+ ".md") content
          = Written) →
       ∃ w', sync_document E (VDict d) token w = (Ok true, w')
             ∧ files w' !! ("Unknown_Year/0000-00-00 " +:+ sanitize_filename title +:+ ".md")
               = Some ((frontmatter (Py.dget d "id" VNone) (escape_title title)
                          (Py.dget d "created_at" (VStr "")) ps +:+ notes)
                       +:+ transcript_text)).
Proof.
  intros Htitle Hcreated.
  pose proof (date_parts_sentinel E d Hcreated) as Hparts.
  assert (target E (VDict d)
          = Ok ("Unknown_Year", "0000-00-00 " +:+ sanitize_filename title +:+ ".md"))
    as Htarget.
  { unfold target. rewrite (get_dict d "title"), bind_ok, (get_dict d "created_at"), bind_ok.
    rewrite Hparts, bind_ok, Htitle. reflexivity. }
  split; [exact Hparts|]. split; [exact Htarget|].
  intros w notes ps transcript_text Hid Hdir Hfile Hnotes Hpeople Hformat Hwrite.
  destruct (sync_document_download E d token w "Unknown_Year"
              ("0000-00-00 " +:+ sanitize_filename title +:+ ".md")
              title notes transcript_text ps)
    as (w' & Hrun & Hfiles & _); auto.
  exists w'. split; [exact Hrun|]. rewrite Hfiles. apply lookup_insert_eq.
Qed.

Lemma missing_timestamp_uses_sentinel_witness :
  date_parts example_env
    (Py.dget [("id", VStr "d2"); ("title", VStr "Stand-up: Monday");
              ("created_at", VStr "last week")] "created_at" (VStr ""))
    = Ok ("0000-00-00", "Unknown_Year")
  ∧ target example_env
      (VDict [("id", VStr "d2"); ("title", VStr "Stand-up: Monday");
              ("created_at", VStr "last week")])
    = Ok ("Unknown_Year", "0000-00-00 Stand-up Monday.md")
  ∧ ∃ w', sync_document example_env
            (VDict [("id", VStr "d2"); ("title", VStr "Stand-up: Monday");
                    ("created_at", VStr "last week")]) "token" empty_world
          = (Ok true, w')
          ∧ is_Some (files w' !! "Unknown_Year/0000-00-00 Stand-up Monday.md").
Proof.
  destruct (missing_timestamp_uses_sentinel example_env
              [("id", VStr "d2"); ("title", VStr "Stand-up: Monday");
               ("created_at", VStr "last week")] "token" "Stand-up: Monday")
    as (Hparts & Htarget & Hrun).
  - reflexivity.
  - right. right. exists "last week". split; [reflexivity | right; reflexivity].
  - split; [exact Hparts|]. split; [exact Htarget|].
    destruct (Hrun empty_world ""
                {| creator := {| name := VStr "Me"; email := VNone |}; attendees := [] |}
                (PyStr.NL +:+ PyStr.NL +:+ "---" +:+ PyStr.NL +:+ "## Full Transcript"
                 +:+ PyStr.NL +:+ PyStr.NL +:+ "**Me**: Hi"))
      as (w' & Hsync & Hfile).
    + reflexivity.
    + right. reflexivity.
    + intros [Hdir|[content Hfile]]; [set_solver | discriminate Hfile].
    + reflexivity.
    + reflexivity.
    + reflexivity.
    + intros content. reflexivity.
    + exists w'. split; [exact Hsync|]. eexists. exact Hfile.
Defined.

(** *** Nothing is deleted *)

Lemma no_deletion_refl (w : world) : no_deletion w w.
Proof. intros path Hex. exact Hex. Qed.

Lemma no_deletion_same (w w' : world) :
  files w' = files w → dirs w' = dirs w → no_deletion w w'.
Proof. intros Hf Hd path. unfold exists_at. now rewrite Hf, Hd. Qed.

Lemma no_deletion_trans (w1 w2 w3 : world) :
  no_deletion w1 w2 → no_deletion w2 w3 → no_deletion w1 w3.
Proof. intros H12 H23 path Hex. apply H23, H12, Hex. Qed.

Lemma keeps_ret {A : Type} (a : A) : keeps_files (mret a).
Proof. intros w. apply no_deletion_refl. Qed.

Lemma keeps_lift {A : Type} (r : result A) : keeps_files (lift r).
Proof. intros w. apply no_deletion_refl. Qed.

Lemma keeps_bind {A B : Type} (m : M A) (f : A → M B) :
  keeps_files m → (∀ a, keeps_files (f a)) → keeps_files (m ≫= f).
Proof.
  intros Hm Hf w. rewrite M_bind_unfold. specialize (Hm w).
  destruct (m w) as [[a|e] w1]; cbn [snd] in *; [|exact Hm].
  eapply no_deletion_trans; [exact Hm | apply Hf].
Qed.

Lemma keeps_logger (entry : log_entry) : keeps_files (logger entry).
Proof. intros w. now apply no_deletion_same. Qed.

Lemma keeps_request_sent (doc_id : value) : keeps_files (request_sent doc_id).
Proof. intros w. now apply no_deletion_same. Qed.

Lemma keeps_path_exists (path : string) : keeps_files (path_exists path).
Proof. intros w. apply no_deletion_refl. Qed.

Lemma keeps_mkdir (E : env) (target_dir : string) : keeps_files (mkdir E target_dir).
Proof.
  intros w. unfold mkdir. destruct (mkdir_ok E target_dir); [|apply no_deletion_refl].
  intros path [Hin|Hfile]; [left; cbn; set_solver | now right].
Qed.

Lemma keeps_write_file (E : env) (filepath content : string) :
  keeps_files (write_file E filepath content).
Proof.
  intros w. unfold write_file.
  destruct (write_file_outcome E filepath content); [|apply no_deletion_refl|];
    (intros path [Hin|Hfile]; [now left | right; now apply is_Some_insert]).
Qed.

Lemma keeps_ensure_dir (E : env) (target_dir : string) :
  keeps_files (ensure_dir E target_dir).
Proof.
  unfold ensure_dir. apply keeps_bind; [apply keeps_path_exists|].
  intros [|]; [apply keeps_ret|]. apply keeps_bind; [apply keeps_mkdir|].
  intros [|]; [apply keeps_ret|]. apply keeps_bind; [apply keeps_logger|].
  intros _. apply keeps_ret.
Qed.

Lemma keeps_fetch_transcript (E : env) (token : string) (doc_id : value) :
  keeps_files (fetch_transcript E token doc_id).
Proof.
  unfold fetch_transcript. apply keeps_bind; [apply keeps_request_sent|]. intros _.
  destruct (post_transcript E token doc_id); try apply keeps_ret.
  apply keeps_bind; [apply keeps_logger|]. intros _. apply keeps_ret.
Qed.

Lemma keeps_download_document (E : env) (doc : value) (token : string)
    (doc_id title created_at_str : value) (filename filepath : string) :
  keeps_files (download_document E doc token doc_id title created_at_str filename filepath).
Proof.
  unfold download_document.
  apply keeps_bind; [apply keeps_logger|]. intros _.
  apply keeps_bind; [apply keeps_lift|]. intros markdown_notes.
  apply keeps_bind; [apply keeps_fetch_transcript|]. intros transcript_data.
  apply keeps_bind; [apply keeps_lift|]. intros ps.
  apply keeps_bind; [apply keeps_lift|]. intros transcript_text.
  apply keeps_bind; [apply keeps_lift|]. intros title_str.
  apply keeps_bind; [apply keeps_lift|]. intros with_notes.
  apply keeps_bind; [apply keeps_write_file|].
  intros [|]; [apply keeps_ret|].
  apply keeps_bind; [apply keeps_logger|]. intros _. apply keeps_ret.
Qed.

Lemma keeps_sync_document (E : env) (doc : value) (token : string) :
  keeps_files (sync_document E doc token).
Proof.
  unfold sync_document.
  apply keeps_bind; [apply keeps_lift|]. intros doc_id.
  apply keeps_bind; [apply keeps_lift|]. intros title.
  apply keeps_bind; [apply keeps_lift|]. intros created_at_str.
  destruct (negb (Py.truthy doc_id)); [apply keeps_ret|].
  apply keeps_bind; [apply keeps_lift|]. intros parts.
  apply keeps_bind; [apply keeps_ensure_dir|].
  intros [|]; [|apply keeps_ret]. cbn [negb].
  apply keeps_bind; [apply keeps_lift|]. intros name.
  apply keeps_bind; [apply keeps_path_exists|].
  intros [|]; [|apply keeps_download_document].
  apply keeps_bind; [apply keeps_logger|]. intros _. apply keeps_ret.
Qed.


(** *** A saved document is synced *)





Lemma ensure_dir_result (E : env) (target_dir : string) (w : world) :
  ∃ ready w1, ensure_dir E target_dir w = (Ok ready, w1)
              ∧ (ready = true → exists_at w1 target_dir).
Proof.
  unfold ensure_dir. rewrite M_bind_unfold.
  destruct (decide (exists_at w target_dir)) as [Hin|Hout].
  - rewrite path_exists_true by exact Hin. exists true, w. auto.
  - rewrite path_exists_false by exact Hout. rewrite M_bind_unfold.
    unfold mkdir. destruct (mkdir_ok E target_dir).
    + eexists true, _. split; [reflexivity|]. intros _. left. cbn. set_solver.
    + eexists false, _. split; [reflexivity|]. discriminate.
Qed.

Lemma download_document_saved (E : env) (doc : value) (token : string)
    (doc_id title created_at_str : value) (filename filepath : string) (w w' : world) :
  download_document E doc token doc_id title created_at_str filename filepath w
    = (Ok true, w') →
  exists_at w' filepath.
Proof.
  unfold download_document. rewrite M_bind_unfold. cbn [logger].
  rewrite lift_bind. destruct (markdown_notes_of doc) as [notes|e]; [|discriminate].
  rewrite M_bind_unfold.
  match goal with |- context [fetch_transcript E token ?i ?w0] =>
    destruct (fetch_transcript_request E token i w0) as (w2 & -> & Hf2 & Hd2 & Hr2)
  end.
  rewrite lift_bind. destruct (extract_people doc) as [ps|e]; [|discriminate].
  rewrite lift_bind. destruct (format_transcript _ _ _) as [tt|e]; [|discriminate].
  rewrite lift_bind. destruct (str_receiver title) as [title_str|e]; [|discriminate].
  rewrite lift_bind. destruct (str_add _ notes) as [with_notes|e]; [|discriminate].
  rewrite M_bind_unfold. unfold write_file.
  destruct (write_file_outcome E filepath _); cbn; try discriminate.
  intros [= <-]. right. cbn. rewrite lookup_insert_eq. eauto.
Qed.

Lemma sync_document_saved (E : env) (doc : value) (token : string) (w w' : world) :
  sync_document E doc token w = (Ok true, w') → synced E w' doc.
Proof.
  intros Hrun. pose proof (keeps_sync_document E doc token w) as Hkept.
  rewrite Hrun in Hkept. cbn [snd] in Hkept. revert Hrun.
  unfold sync_document. rewrite lift_bind.
  destruct doc as [| | | | |l|d]; try discriminate.
  rewrite get_dict, lift_bind, get_dict, lift_bind, get_dict.
  destruct (Py.truthy (Py.dget d "id" VNone)) eqn:Hid; [|discriminate]. cbn [negb].
  rewrite lift_bind.
  destruct (date_parts E (Py.dget d "created_at" (VStr ""))) as [parts|e] eqn:Hparts;
    [|discriminate].
  rewrite M_bind_unfold.
  pose proof (keeps_ensure_dir E parts.2 w) as Hkept1.
  destruct (ensure_dir_result E parts.2 w) as (ready & w1 & Hensure & Hd1).
  rewrite Hensure in Hkept1 |- *. cbn [snd] in Hkept1.
  destruct ready; [|discriminate]. cbn [negb]. rewrite lift_bind.
  destruct (str_receiver (Py.dget d "title" (VStr "Untitled"))) as [name|e] eqn:Hname;
    [|discriminate].
  assert (target E (VDict d)
          = Ok (parts.2, parts.1 +:+ " " +:+ sanitize_filename name +:+ ".md"))
    as Htarget.
  { unfold target. rewrite (get_dict d "title"), bind_ok, (get_dict d "created_at"), bind_ok.
    now rewrite Hparts, bind_ok, Hname. }
  rewrite M_bind_unfold.
  destruct (decide (exists_at w1
              (path_of parts.2 (parts.1 +:+ " " +:+ sanitize_filename name +:+ ".md"))))
    as [Hfile|Hfile].
  - rewrite path_exists_true by exact Hfile. intros [= <-].
    eexists d, _, _. repeat split; eauto.
  - rewrite path_exists_false by exact Hfile. intros Hdownload.
    pose proof (keeps_download_document E (VDict d) token (Py.dget d "id" VNone)
                  (Py.dget d "title" (VStr "Untitled")) (Py.dget d "created_at" (VStr ""))
                  (parts.1 +:+ " " +:+ sanitize_filename name +:+ ".md")
                  (path_of parts.2 (parts.1 +:+ " " +:+ sanitize_filename name +:+ ".md"))
                  w1) as Hkept2.
    rewrite Hdownload in Hkept2. cbn [snd] in Hkept2.
    apply download_document_saved in Hdownload.
    eexists d, _, _. repeat split; eauto.
Qed.

(** *** The loop over the documents *)


Lemma sync_document_synced (E : env) (doc : value) (token : string) (w : world) :
  synced E w doc →
  ∃ w', sync_document E doc token w = (Ok true, w')
        ∧ files w' = files w ∧ dirs w' = dirs w ∧ fetched w' = fetched w.
Proof.
  intros (d & target_dir & filename & -> & Hid & Htarget & Hdir & Hfile).
  eexists. split; [now apply (sync_document_skip E d token w target_dir filename)|].
  auto.
Qed.






(** C10.  In the file that [sync_document] writes, the frontmatter escapes
    the double quotes of the title only: the title line holds the document's
    title with each double quote replaced by backslash and double quote,
    while for every participant that [extract_people] finds in the document
    the name, and the email when there is one, stand between their double
    quotes exactly as they are, so a double quote inside them reaches the
    file without a backslash. *)
Theorem frontmatter_quoting (E : env) (d : list (string * value)) (token : string)
    (w : world) (target_dir filename title notes transcript_text : string)
    (ps : people) :
  Py.truthy (Py.dget d "id" VNone) = true →
  target E (VDict d) = Ok (target_dir, filename) →
  Py.dget d "title" (VStr "Untitled") = VStr title →
  exists_at w target_dir ∨ mkdir_ok E target_dir = true →
  ¬ exists_at w (path_of target_dir filename) →
  markdown_notes_of (VDict d) = Ok (VStr notes) →
  extract_people (VDict d) = Ok ps →
  format_transcript
    (match post_transcript E token (Py.dget d "id" VNone) with
     | Json body => body
     | _ => VNone
     end) (name (creator ps)) (List.map name (attendees ps)) = Ok transcript_text →
  (∀ content, write_file_outcome E (path_of target_dir filename) content = Written) →
  ∃ w' content,
    sync_document E (VDict d) token w = (Ok true, w')
    ∧ files w' !! path_of target_dir filename = Some content
    ∧ occurs_in
        ("title: " +:+ PyStr.DQ
         +:+ PyStr.each_char (fun c => if Ascii.eqb c PyStr.dquote
                                       then String PyStr.bslash PyStr.DQ
                                       else String c "") title
         +:+ PyStr.DQ +:+ PyStr.NL) content
    ∧ (∀ p, In p (creator ps :: attendees ps) →
         occurs_in ("  - name: " +:+ PyStr.DQ +:+ Py.str (name p) +:+ PyStr.DQ +:+ PyStr.NL)
           content
         ∧ (Py.truthy (email p) = true →
            occurs_in ("    email: " +:+ PyStr.DQ +:+ Py.str (email p) +:+ PyStr.DQ
                       +:+ PyStr.NL) content)).
Proof.
  intros Hid Htarget Htitle Hdir Hfile Hnotes Hpeople Hformat Hwrite.
  destruct (sync_document_download E d token w target_dir filename title notes
              transcript_text ps Hid Htarget Htitle Hdir Hfile Hnotes Hpeople Hformat
              (Hwrite _)) as (w' & Hrun & Hfiles & _).
  destruct (frontmatter_lines (Py.dget d "id" VNone) (Py.dget d "created_at" (VStr ""))
              title ps) as (Hescape & Htitle_line & Hpeople_lines).
  exists w'. eexists. split; [exact Hrun|]. split.
  { rewrite Hfiles. apply lookup_insert_eq. }
  split.
  - rewrite <- Hescape. now apply occurs_in_app_l, occurs_in_app_l.
  - intros p Hin. destruct (Hpeople_lines p Hin) as [Hname Hemail]. split.
    + now apply occurs_in_app_l, occurs_in_app_l.
    + intros Htruthy. now apply occurs_in_app_l, occurs_in_app_l, Hemail.
Qed.

Lemma frontmatter_quoting_witness :
  ∃ w' content,
    sync_document example_env
      (VDict [("id", VStr "d7");
              ("title", VStr ("The " +:+ PyStr.DQ +:+ "plan" +:+ PyStr.DQ));
              ("people",
               VDict [("attendees",
                       VList [VDict [("email", VStr ("a" +:+ PyStr.DQ +:+ "j@x.org"));
                                     ("details",
                                      VDict [("person",
                                              VDict [("name",
                                                      VDict [("fullName",
                                                              VStr ("Ann " +:+ PyStr.DQ
                                                                    +:+ "AJ" +:+ PyStr.DQ
                                                                    +:+ " Lee"))])])])]])])])
      "token" empty_world
    = (Ok true, w')
    ∧ files w' !! "Unknown_Year/0000-00-00 The -plan-.md" = Some content
    ∧ occurs_in ("title: " +:+ PyStr.DQ +:+ "The \" +:+ PyStr.DQ +:+ "plan\" +:+ PyStr.DQ
                 +:+ PyStr.DQ +:+ PyStr.NL) content
    ∧ occurs_in ("  - name: " +:+ PyStr.DQ +:+ "Ann " +:+ PyStr.DQ +:+ "AJ" +:+ PyStr.DQ
                 +:+ " Lee" +:+ PyStr.DQ +:+ PyStr.NL) content
    ∧ occurs_in ("    email: " +:+ PyStr.DQ +:+ "a" +:+ PyStr.DQ +:+ "j@x.org"
                 +:+ PyStr.DQ +:+ PyStr.NL) content.
Proof.
  destruct (frontmatter_quoting example_env
              [("id", VStr "d7");
               ("title", VStr ("The " +:+ PyStr.DQ +:+ "plan" +:+ PyStr.DQ));
               ("people",
                VDict [("attendees",
                        VList [VDict [("email", VStr ("a" +:+ PyStr.DQ +:+ "j@x.org"));
                                      ("details",
                                       VDict [("person",
                                               VDict [("name",
                                                       VDict [("fullName",
                                                               VStr ("Ann " +:+ PyStr.DQ
                                                                     +:+ "AJ" +:+ PyStr.DQ
                                                                     +:+ " Lee"))])])])]])])]
              "token" empty_world "Unknown_Year" "0000-00-00 The -plan-.md"
              ("The " +:+ PyStr.DQ +:+ "plan" +:+ PyStr.DQ) ""
              (PyStr.NL +:+ PyStr.NL +:+ "---" +:+ PyStr.NL +:+ "## Full Transcript"
               +:+ PyStr.NL +:+ PyStr.NL +:+ "**Me**: Hi")
              {| creator := {| name := VStr "Me"; email := VNone |};
                 attendees :=
                   [{| name := VStr ("Ann " +:+ PyStr.DQ +:+ "AJ" +:+ PyStr.DQ +:+ " Lee");
                       email := VStr ("a" +:+ PyStr.DQ +:+ "j@x.org") |}] |})
    as (w' & content & Hrun & Hfile & Htitle & Hpeople).
  - reflexivity.
  - reflexivity.
  - reflexivity.
  - right. reflexivity.
  - intros [Hdir|[content Hcontent]]; [set_solver | discriminate Hcontent].
  - reflexivity.
  - reflexivity.
  - reflexivity.
  - intros content. reflexivity.
  - exists w', content. split; [exact Hrun|]. split; [exact Hfile|].
    split; [exact Htitle|].
    destruct (Hpeople
                {| name := VStr ("Ann " +:+ PyStr.DQ +:+ "AJ" +:+ PyStr.DQ +:+ " Lee");
                   email := VStr ("a" +:+ PyStr.DQ +:+ "j@x.org") |})
      as [Hname Hemail]; [right; left; reflexivity|].
    split; [exact Hname|]. apply Hemail. reflexivity.
Defined.

(** * Further properties *)

(** ** The rich-text converter, node by node *)

Lemma apply_marks_str (marks : list value) (s : string) (v : value) :
  apply_marks marks (VStr s) = Ok v → ∃ t, v = VStr t.
Proof.
  revert s. induction marks as [|mark rest IH]; intros s.
  - intros [= <-]. eauto.
  - cbn [apply_marks]. destruct (Py.get mark "type" VNone) as [m_type|e]; [|discriminate].
    rewrite bind_ok.
    destruct (Py.eq_str m_type "bold"); [apply IH|].
    destruct (Py.eq_str m_type "italic"); [apply IH|].
    destruct (Py.eq_str m_type "code"); [apply IH|].
    destruct (Py.eq_str m_type "link"); [|apply IH].
    destruct (Py.get mark "attrs" (VDict [])) as [attrs|e]; [|discriminate].
    rewrite bind_ok.
    destruct (Py.get attrs "href" (VStr "")) as [href|e]; [|discriminate].
    rewrite bind_ok. intros [= <-]. eauto.
Qed.

Lemma render_node_str (node : list (string * value)) (child_text : string) (v : value) :
  Py.eq_str (Py.dget node "type" (VStr "")) "text" = false
  ∨ (∃ s, Py.dget node "text" (VStr "") = VStr s) →
  render_node node child_text = Ok v → ∃ t, v = VStr t.
Proof.
  intros Htext. unfold render_node.
  destruct (Py.eq_str _ "doc"); [intros [= <-]; eauto|].
  destruct (Py.eq_str _ "heading").
  { destruct (Py.get _ "level" _) as [level|e]; [|discriminate]. rewrite bind_ok.
    destruct (Py.times "#" level) as [hashes|e]; [|discriminate]. rewrite bind_ok.
    intros [= <-]. eauto. }
  destruct (Py.eq_str _ "paragraph"); [intros [= <-]; eauto|].
  destruct (Py.eq_str _ "bulletList"); [intros [= <-]; eauto|].
  destruct (Py.eq_str _ "orderedList"); [intros [= <-]; eauto|].
  destruct (Py.eq_str _ "listItem"); [intros [= <-]; eauto|].
  destruct (Py.eq_str _ "text") eqn:Htype.
  { destruct Htext as [Hno|[s Hs]]; [discriminate|]. rewrite Hs.
    destruct (Py.iter _) as [marks|e]; [|discriminate]. rewrite bind_ok.
    apply apply_marks_str. }
  destruct (Py.eq_str _ "horizontalRule"); intros [= <-]; eauto.
Qed.

(** X1. A successful rendering is a str for every node that is not a text
    node, and for every text node whose text is a str (or missing): only a
    text node with a text that is not a str can hand a value of another type
    to its parent. *)
Theorem parse_prosemirror_gives_str (node : list (string * value)) (v : value) :
  Py.eq_str (Py.dget node "type" (VStr "")) "text" = false
  ∨ (∃ s, Py.dget node "text" (VStr "") = VStr s) →
  parse_prosemirror (VDict node) = Ok v →
  ∃ t, v = VStr t.
Proof.
  intros Htext. rewrite parse_prosemirror_record.
  destruct (children_text parse_prosemirror node) as [child_text|e]; [|discriminate].
  rewrite bind_ok. now apply render_node_str.
Qed.

Lemma parse_prosemirror_gives_str_witness :
  ∃ t, VStr ("- a" +:+ PyStr.NL) = VStr t.
Proof.
  apply (parse_prosemirror_gives_str
           [("type", VStr "listItem");
            ("content", VList [VDict [("type", VStr "text"); ("text", VStr " a ")]])]
           (VStr ("- a" +:+ PyStr.NL))).
  - left. reflexivity.
  - reflexivity.
Defined.

Lemma mapM_render (nodes : list value) (texts : list string) :
  Forall2 (fun node text => parse_prosemirror node = Ok (VStr text)) nodes texts →
  mapM parse_prosemirror nodes = Ok (List.map VStr texts).
Proof.
  induction 1 as [|node text nodes texts Hnode _ IH]; [reflexivity|].
  cbn [mapM List.map]. rewrite Hnode, bind_ok, IH. reflexivity.
Qed.

Lemma join_empty_strs (texts : list string) :
  Py.join_empty (List.map VStr texts) = Ok (PyStr.concat texts).
Proof.
  induction texts as [|text texts IH]; [reflexivity|].
  cbn [List.map Py.join_empty PyStr.concat]. now rewrite IH.
Qed.

Lemma children_text_concat (node : list (string * value)) (nodes : list value)
    (texts : list string) :
  Py.dget node "content" (VList []) = VList nodes →
  Forall2 (fun child text => parse_prosemirror child = Ok (VStr text)) nodes texts →
  children_text parse_prosemirror node = Ok (PyStr.concat texts).
Proof.
  intros Hcontent Hnodes. rewrite children_text_source, Hcontent.
  cbn [Py.iter]. rewrite bind_ok, (mapM_render nodes texts Hnodes), bind_ok.
  apply join_empty_strs.
Qed.

(** X2. A document node, or a node of a type the converter does not know,
    renders as the concatenation of the renderings of its children, in their
    order, with nothing added between or around them. *)
Theorem container_renders_concat (node : list (string * value)) (nodes : list value)
    (texts : list string) :
  Py.dget node "content" (VList []) = VList nodes →
  Forall2 (fun child text => parse_prosemirror child = Ok (VStr text)) nodes texts →
  Forall (fun known => Py.eq_str (Py.dget node "type" (VStr "")) known = false)
    ["heading"; "paragraph"; "bulletList"; "orderedList"; "listItem"; "text";
     "horizontalRule"] →
  parse_prosemirror (VDict node) = Ok (VStr (PyStr.concat texts)).
Proof.
  intros Hcontent Hnodes Htype.
  rewrite parse_prosemirror_record, (children_text_concat node nodes texts), bind_ok
    by assumption.
  unfold render_node.
  repeat match goal with
         | H : Forall _ (_ :: _) |- _ => apply Forall_cons in H as [? H]
         end.
  destruct (Py.eq_str _ "doc"); [reflexivity|].
  repeat match goal with
         | H : Py.eq_str _ _ = false |- _ => rewrite H; clear H
         end.
  reflexivity.
Qed.

Lemma container_renders_concat_witness :
  parse_prosemirror
    (VDict [("type", VStr "doc");
            ("content", VList [VDict [("type", VStr "text"); ("text", VStr "a")];
                               VDict [("type", VStr "callout");
                                      ("content", VList [VDict [("type", VStr "text");
                                                                ("text", VStr "b")]])]])])
  = Ok (VStr (PyStr.concat ["a"; "b"])).
Proof.
  apply (container_renders_concat
           [("type", VStr "doc");
            ("content", VList [VDict [("type", VStr "text"); ("text", VStr "a")];
                               VDict [("type", VStr "callout");
                                      ("content", VList [VDict [("type", VStr "text");
                                                                ("text", VStr "b")]])]])]
           [VDict [("type", VStr "text"); ("text", VStr "a")];
            VDict [("type", VStr "callout");
                   ("content", VList [VDict [("type", VStr "text"); ("text", VStr "b")]])]]
           ["a"; "b"]).
  - reflexivity.
  - repeat constructor.
  - repeat constructor.
Defined.

(** X3. On a text node whose marks are records, none of them a link, the
    marks are all applied in their order, each one wrapping what the earlier
    ones made, so the last mark is the outermost; a mark of a type other than
    bold, italic and code changes nothing. *)
Theorem text_node_marks_stack (node : list (string * value))
    (marks : list (list (string * value))) (child_text : string) :
  Py.dget node "type" (VStr "") = VStr "text" →
  children_text parse_prosemirror node = Ok child_text →
  Py.dget node "marks" (VList []) = VList (List.map VDict marks) →
  Forall (fun mark => Py.dget mark "type" VNone ≠ VStr "link") marks →
  parse_prosemirror (VDict node) = Ok (decorate marks (Py.dget node "text" (VStr "")))
  ∧ (∀ earlier mark text,
       decorate (earlier ++ [mark]) text = wrap_mark (decorate earlier text) mark)
  ∧ (∀ mark text,
       Forall (fun known => Py.eq_str (Py.dget mark "type" VNone) known = false)
         ["bold"; "italic"; "code"] →
       wrap_mark text mark = text).
Proof.
  intros Htype Hchildren Hmarks Hnolink. split; [|split].
  - rewrite parse_prosemirror_record, Hchildren, bind_ok.
    unfold render_node. rewrite Htype, Hmarks.
    change (Py.eq_str (VStr "text") "doc") with false.
    cbn -[apply_marks decorate].
    rewrite <- (app_nil_r (List.map VDict marks)).
    now rewrite (apply_marks_before_link marks [] _ Hnolink).
  - intros earlier mark text. unfold decorate. now rewrite fold_left_app.
  - intros mark text Hknown.
    apply Forall_cons in Hknown as [Hbold Hknown].
    apply Forall_cons in Hknown as [Hitalic Hknown].
    apply Forall_cons in Hknown as [Hcode _].
    unfold wrap_mark. now rewrite Hbold, Hitalic, Hcode.
Qed.

Lemma text_node_marks_stack_witness :
  parse_prosemirror
    (VDict [("type", VStr "text"); ("text", VStr "x");
            ("marks", VList [VDict [("type", VStr "bold")];
                             VDict [("type", VStr "underline")];
                             VDict [("type", VStr "code")]])])
  = Ok (VStr "`**x**`").
Proof.
  apply (text_node_marks_stack
           [("type", VStr "text"); ("text", VStr "x");
            ("marks", VList [VDict [("type", VStr "bold")];
                             VDict [("type", VStr "underline")];
                             VDict [("type", VStr "code")]])]
           [[("type", VStr "bold")]; [("type", VStr "underline")]; [("type", VStr "code")]]
           "").
  - reflexivity.
  - reflexivity.
  - reflexivity.
  - repeat constructor; discriminate.
Defined.

(** X4. A mark that is not a record makes the text node raise
    [AttributeError] as soon as the loop reaches it, that is unless a link
    mark comes before it. *)
Theorem text_node_bad_mark (node : list (string * value))
    (before : list (list (string * value))) (bad : value) (after : list value)
    (child_text : string) :
  Py.dget node "type" (VStr "") = VStr "text" →
  children_text parse_prosemirror node = Ok child_text →
  Py.dget node "marks" (VList []) = VList (List.map VDict before ++ bad :: after) →
  Forall (fun mark => Py.dget mark "type" VNone ≠ VStr "link") before →
  (∀ d, bad ≠ VDict d) →
  parse_prosemirror (VDict node) = Raise AttributeError.
Proof.
  intros Htype Hchildren Hmarks Hnolink Hbad.
  rewrite parse_prosemirror_record, Hchildren, bind_ok.
  unfold render_node. rewrite Htype, Hmarks.
  change (Py.eq_str (VStr "text") "doc") with false.
  cbn -[apply_marks].
  rewrite (apply_marks_before_link before _ _ Hnolink).
  cbn [apply_marks]. destruct bad; try reflexivity. now destruct (Hbad d).
Qed.

Lemma text_node_bad_mark_witness :
  parse_prosemirror
    (VDict [("type", VStr "text"); ("text", VStr "x");
            ("marks", VList [VDict [("type", VStr "bold")]; VStr "italic"])])
  = Raise AttributeError.
Proof.
  apply (text_node_bad_mark
           [("type", VStr "text"); ("text", VStr "x");
            ("marks", VList [VDict [("type", VStr "bold")]; VStr "italic"])]
           [[("type", VStr "bold")]] (VStr "italic") [] "").
  - reflexivity.
  - reflexivity.
  - reflexivity.
  - repeat constructor; discriminate.
  - discriminate.
Defined.

(** X5. An ordered list renders exactly as a bullet list with the same
    content: no numbering is produced. *)
Theorem ordered_list_as_bullet_list (bullet ordered : list (string * value)) :
  Py.dget bullet "type" (VStr "") = VStr "bulletList" →
  Py.dget ordered "type" (VStr "") = VStr "orderedList" →
  Py.dget ordered "content" (VList []) = Py.dget bullet "content" (VList []) →
  parse_prosemirror (VDict ordered) = parse_prosemirror (VDict bullet).
Proof.
  intros Hbullet Hordered Hcontent.
  rewrite !parse_prosemirror_record, !children_text_source, Hcontent.
  destruct (content ← Py.iter (Py.dget bullet "content" (VList []));
            parts ← mapM parse_prosemirror content; Py.join_empty parts)
    as [child_text|e]; [|reflexivity].
  rewrite !bind_ok. unfold render_node. now rewrite Hbullet, Hordered.
Qed.

Lemma ordered_list_as_bullet_list_witness :
  parse_prosemirror
    (VDict [("type", VStr "orderedList");
            ("content", VList [VDict [("type", VStr "listItem");
                                      ("content", VList [VDict [("type", VStr "text");
                                                                ("text", VStr "one")]])]])])
  = parse_prosemirror
      (VDict [("content", VList [VDict [("type", VStr "listItem");
                                        ("content", VList [VDict [("type", VStr "text");
                                                                  ("text", VStr "one")]])]]);
              ("type", VStr "bulletList")]).
Proof.
  apply (ordered_list_as_bullet_list
           [("content", VList [VDict [("type", VStr "listItem");
                                      ("content", VList [VDict [("type", VStr "text");
                                                                ("text", VStr "one")]])]]);
            ("type", VStr "bulletList")]
           [("type", VStr "orderedList");
            ("content", VList [VDict [("type", VStr "listItem");
                                      ("content", VList [VDict [("type", VStr "text");
                                                                ("text", VStr "one")]])]])]);
    reflexivity.
Defined.

(** *** [strip] *)

Lemma lstrip_clean (s : string) :
  match PyStr.lstrip s with
  | "" => True
  | String c _ => PyStr.is_space c = false
  end.
Proof.
  induction s as [|c s IH]; [exact I|]. cbn [PyStr.lstrip].
  destruct (PyStr.is_space c) eqn:Hc; [exact IH | exact Hc].
Qed.

Lemma rstrip_idem (s : string) : PyStr.rstrip (PyStr.rstrip s) = PyStr.rstrip s.
Proof.
  induction s as [|c s IH]; [reflexivity|]. cbn [PyStr.rstrip].
  destruct (PyStr.rstrip s) as [|a r] eqn:Hr.
  - destruct (PyStr.is_space c) eqn:Hc; [reflexivity|]. cbn. now rewrite Hc.
  - cbn [PyStr.rstrip]. cbn [PyStr.rstrip] in IH.
    destruct (PyStr.rstrip r) as [|a' r'] eqn:Hr'.
    + destruct (PyStr.is_space a) eqn:Ha; [discriminate IH|]. now injection IH as <-.
    + now rewrite IH.
Qed.

Lemma strip_clean_start (s : string) :
  match s with
  | "" => True
  | String c _ => PyStr.is_space c = false
  end →
  PyStr.lstrip (PyStr.rstrip s) = PyStr.rstrip s.
Proof.
  destruct s as [|c s]; [reflexivity|]. intros Hc.
  rewrite (rstrip_cons c s Hc). cbn [PyStr.lstrip]. now rewrite Hc.
Qed.

Lemma strip_idem (s : string) : PyStr.strip (PyStr.strip s) = PyStr.strip s.
Proof.
  unfold PyStr.strip. rewrite (strip_clean_start _ (lstrip_clean s)).
  apply rstrip_idem.
Qed.

(** X6. A list item renders as a dash, a space, the text of its children
    and a newline, where the text has no whitespace left at either end:
    stripping it again changes nothing. *)
Theorem list_item_is_trimmed (node : list (string * value)) (v : value) :
  Py.dget node "type" (VStr "") = VStr "listItem" →
  parse_prosemirror (VDict node) = Ok v →
  ∃ item, v = VStr ("- " +:+ item +:+ PyStr.NL)
          ∧ PyStr.strip item = item
          ∧ ∀ child_text, children_text parse_prosemirror node = Ok child_text →
                          item = PyStr.strip child_text.
Proof.
  intros Htype. rewrite parse_prosemirror_record.
  destruct (children_text parse_prosemirror node) as [child_text|e]; [|discriminate].
  rewrite bind_ok. unfold render_node. rewrite Htype.
  change (Py.eq_str (VStr "listItem") "doc") with false. cbn.
  intros [= <-]. exists (PyStr.strip child_text).
  split; [reflexivity|]. split; [apply strip_idem|]. now intros ? [= <-].
Qed.

Lemma list_item_is_trimmed_witness :
  ∃ item, VStr ("- one" +:+ PyStr.NL) = VStr ("- " +:+ item +:+ PyStr.NL)
          ∧ PyStr.strip item = item
          ∧ ∀ child_text,
              children_text parse_prosemirror
                [("type", VStr "listItem");
                 ("content", VList [VDict [("type", VStr "paragraph");
                                           ("content", VList [VDict [("type", VStr "text");
                                                                     ("text", VStr " one")]])]])]
              = Ok child_text →
              item = PyStr.strip child_text.
Proof.
  apply (list_item_is_trimmed
           [("type", VStr "listItem");
            ("content", VList [VDict [("type", VStr "paragraph");
                                      ("content", VList [VDict [("type", VStr "text");
                                                                ("text", VStr " one")]])]])]
           (VStr ("- one" +:+ PyStr.NL))); reflexivity.
Defined.

(** ** The sanitizer, beyond its five rules *)

Lemma all_chars_impl (p q : ascii → bool) (s : string) :
  (∀ c, p c = true → q c = true) → all_chars p s = true → all_chars q s = true.
Proof.
  intros Hpq. induction s as [|c s IH]; [reflexivity|]. cbn [all_chars].
  intros [Hc Hs]%andb_true_iff. now rewrite (Hpq c Hc), IH.
Qed.

Lemma all_chars_and (p q : ascii → bool) (s : string) :
  all_chars p s = true → all_chars q s = true →
  all_chars (fun c => p c && q c) s = true.
Proof.
  induction s as [|c s IH]; [reflexivity|]. cbn [all_chars].
  intros [Hp Hps]%andb_true_iff [Hq Hqs]%andb_true_iff. now rewrite Hp, Hq, IH.
Qed.

Lemma all_chars_not_mem (a : ascii) (s : string) :
  all_chars (fun c => negb (Ascii.eqb c a)) s = true ↔ PyStr.mem a s = false.
Proof.
  induction s as [|c s IH]; [easy|]. cbn [all_chars PyStr.mem].
  rewrite andb_true_iff, orb_false_iff, IH, negb_true_iff. reflexivity.
Qed.

Lemma all_chars_each_char_from (p q : ascii → bool) (f : ascii → string) (s : string) :
  (∀ a, p a = true → all_chars q (f a) = true) →
  all_chars p s = true → all_chars q (PyStr.each_char f s) = true.
Proof.
  intros Hf. induction s as [|c s IH]; [reflexivity|]. cbn [all_chars].
  intros [Hc Hs]%andb_true_iff. now rewrite each_char_cons, all_chars_app, Hf, IH.
Qed.

Lemma each_char_same (p : ascii → bool) (f : ascii → string) (s : string) :
  (∀ a, p a = true → f a = String a "") →
  all_chars p s = true → PyStr.each_char f s = s.
Proof.
  intros Hf. induction s as [|c s IH]; [reflexivity|]. cbn [all_chars].
  intros [Hc Hs]%andb_true_iff. now rewrite each_char_cons, (Hf c Hc), IH.
Qed.

Lemma all_chars_collapse_runs (p : ascii → bool) (in_run : bool) (s : string) :
  p " "%char = true → all_chars p s = true →
  all_chars p (SanitizeSpec.collapse_runs in_run s) = true.
Proof.
  intros Hspace. revert in_run.
  induction s as [|c s IH]; intros in_run; [reflexivity|].
  cbn [all_chars SanitizeSpec.collapse_runs]. intros [Hc Hs]%andb_true_iff.
  destruct (PyStr.is_space c).
  - destruct in_run; [now apply IH|]. cbn [all_chars]. now rewrite Hspace, IH.
  - cbn [all_chars]. now rewrite Hc, IH.
Qed.

Lemma angle_pair_absent (s : string) :
  PyStr.mem "<" s = false → SanitizeSpec.angle_pair_to_and s = s.
Proof.
  induction s as [|c s IH]; [reflexivity|]. cbn [PyStr.mem].
  intros [Hc Hs]%orb_false_iff. cbn [SanitizeSpec.angle_pair_to_and].
  destruct s as [|c' s']; [reflexivity|]. now rewrite Hc, (IH Hs).
Qed.

Lemma sanitize_filename_all_chars (title : string) :
  all_chars (fun c => negb (never_kept c)) (sanitize_filename title) = true.
Proof.
  rewrite sanitize_filename_as_rules. unfold SanitizeSpec.sanitize.
  unfold SanitizeSpec.collapse_and_trim, PyStr.strip.
  apply all_chars_rstrip, all_chars_lstrip, all_chars_collapse.
  unfold SanitizeSpec.invalid_to_dash, SanitizeSpec.slash_to_dash,
    SanitizeSpec.remove_colons.
  rewrite !each_char_compose. apply all_chars_each_char.
  intros [[] [] [] [] [] [] [] []]; reflexivity.
Qed.

(** X7. Whatever the title, every character of the sanitized name is
    allowed: the name holds no colon, no slash, no double quote, backslash,
    bar, question mark or star, and no whitespace other than the space, so
    in particular no tab, newline or carriage return. *)
Theorem sanitize_filename_clean (title : string) :
  all_chars (fun c => negb (never_kept c)) (sanitize_filename title) = true
  ∧ Forall (fun c => PyStr.mem c (sanitize_filename title) = false)
      [":"; "/"; PyStr.dquote; PyStr.bslash; "|"; "?"; "*";
       ascii_of_nat 9; ascii_of_nat 10; ascii_of_nat 13]%char.
Proof.
  pose proof (sanitize_filename_all_chars title) as Hclean.
  split; [exact Hclean|].
  repeat constructor;
    (apply all_chars_not_mem; revert Hclean; apply all_chars_impl;
     intros [[] [] [] [] [] [] [] []]; cbn; intros H;
     first [reflexivity | discriminate H]).
Qed.

(** *** Sanitizing twice *)

Lemma split_from_words (s : string) (cur : option string) :
  (∀ w, cur = Some w → is_word w) → Forall is_word (PyStr.split_from cur s).
Proof.
  revert cur. induction s as [|c s IH]; intros cur Hcur.
  - cbn. destruct cur as [w|]; [|constructor]. repeat constructor; now apply Hcur.
  - cbn [PyStr.split_from]. destruct (PyStr.is_space c) eqn:Hc.
    + destruct cur as [w|].
      * constructor; [now apply Hcur|]. now apply IH.
      * now apply IH.
    + apply IH. intros w [= <-]. destruct cur as [w|].
      * destruct (Hcur w eq_refl) as [Hne Hw]. split.
        -- destruct w; discriminate.
        -- rewrite all_chars_app, Hw. cbn. now rewrite Hc.
      * split; [discriminate|]. cbn. now rewrite Hc.
Qed.

Lemma word_prefix_app (w rest : string) :
  all_chars (fun c => negb (PyStr.is_space c)) w = true →
  word_prefix (w +:+ rest) = w +:+ word_prefix rest
  ∧ after_word (w +:+ rest) = after_word rest.
Proof.
  induction w as [|c w IH]; [now split|]. cbn [all_chars].
  intros [Hc Hw]%andb_true_iff. apply negb_true_iff in Hc.
  rewrite !append_cons. cbn [word_prefix after_word]. rewrite Hc.
  destruct (IH Hw) as [-> ->]. now split.
Qed.

Lemma split_join_words (ws : list string) :
  Forall is_word ws → PyStr.split (PyStr.join " " ws) = ws.
Proof.
  induction 1 as [|w ws [Hne Hw] _ IH]; [reflexivity|].
  rewrite join_cons. destruct w as [|c w]; [contradiction|].
  cbn [all_chars] in Hw. apply andb_true_iff in Hw as [Hc Hw].
  apply negb_true_iff in Hc. rewrite append_cons, (split_word c _ Hc).
  destruct (word_prefix_app w (more_words ws) Hw) as [-> ->].
  destruct ws as [|w' ws'].
  - cbn. now rewrite append_nil_r.
  - unfold more_words in *. rewrite append_cons. cbn [word_prefix after_word].
    change (PyStr.is_space " ") with true. cbn iota.
    rewrite append_nil_r, (split_space " " _ eq_refl).
    change ("" +:+ PyStr.join " " (w' :: ws')) with (PyStr.join " " (w' :: ws')).
    now rewrite IH.
Qed.

Lemma join_split_idem (s : string) :
  PyStr.join " " (PyStr.split (PyStr.join " " (PyStr.split s)))
  = PyStr.join " " (PyStr.split s).
Proof.
  rewrite split_join_words; [reflexivity|].
  apply split_from_words. discriminate.
Qed.

(** X8. A sanitized name has no whitespace at its ends, and sanitizing the
    sanitized name of a title without [<] gives it back unchanged.  With
    angle brackets this fails: from [<:>] the first pass makes [<>], which a
    second pass turns into [and]. *)
Theorem sanitize_filename_twice :
  (∀ title, PyStr.strip (sanitize_filename title) = sanitize_filename title)
  ∧ (∀ title, PyStr.mem "<" title = false →
       sanitize_filename (sanitize_filename title) = sanitize_filename title)
  ∧ sanitize_filename "<:>" = "<>"
  ∧ sanitize_filename (sanitize_filename "<:>") = "and".
Proof.
  split; [|split; [|split; reflexivity]].
  - intros title. rewrite sanitize_filename_as_rules. unfold SanitizeSpec.sanitize.
    unfold SanitizeSpec.collapse_and_trim. apply strip_idem.
  - intros title Hangle.
    assert (all_chars (fun c => negb (never_kept c) && negb (Ascii.eqb c "<"))
              (sanitize_filename title) = true) as Hchars.
    { apply all_chars_and; [apply sanitize_filename_all_chars|].
      rewrite sanitize_filename_as_rules. unfold SanitizeSpec.sanitize.
      rewrite (angle_pair_absent title Hangle).
      unfold SanitizeSpec.collapse_and_trim, PyStr.strip.
      apply all_chars_rstrip, all_chars_lstrip, all_chars_collapse_runs; [reflexivity|].
      unfold SanitizeSpec.invalid_to_dash, SanitizeSpec.slash_to_dash,
        SanitizeSpec.remove_colons.
      rewrite !each_char_compose.
      apply (all_chars_each_char_from (fun c => negb (Ascii.eqb c "<")));
        [|now apply all_chars_not_mem].
      intros [[] [] [] [] [] [] [] []] H; first [reflexivity | discriminate H]. }
    rewrite (sanitize_filename_as_rules (sanitize_filename title)).
    unfold SanitizeSpec.sanitize.
    rewrite angle_pair_absent.
    2:{ apply all_chars_not_mem. revert Hchars. apply all_chars_impl.
        intros c [_ Hc]%andb_true_iff. exact Hc. }
    unfold SanitizeSpec.invalid_to_dash, SanitizeSpec.slash_to_dash,
      SanitizeSpec.remove_colons.
    rewrite !each_char_compose.
    match goal with
    | |- context [PyStr.each_char ?g (sanitize_filename title)] =>
        rewrite (each_char_same
                   (fun c => negb (never_kept c) && negb (Ascii.eqb c "<")) g _
                   ltac:(intros [[] [] [] [] [] [] [] []] H;
                         first [reflexivity | discriminate H])
                   Hchars)
    end.
    rewrite <- join_split. unfold sanitize_filename.
    apply join_split_idem.
Qed.

Lemma sanitize_filename_twice_witness :
  sanitize_filename (sanitize_filename "Q3:Plan/Review  > Ops ")
  = sanitize_filename "Q3:Plan/Review  > Ops ".
Proof.
  apply (proj1 (proj2 sanitize_filename_twice)). reflexivity.
Defined.

(** ** The target of a document *)

Lemma uint_no_slash (d : Decimal.uint) :
  all_chars (fun c => negb (Ascii.eqb c "/")) (NilEmpty.string_of_uint d) = true.
Proof. induction d; cbn; auto. Qed.

Lemma of_int_no_slash (n : Z) :
  all_chars (fun c => negb (Ascii.eqb c "/")) (PyStr.of_int n) = true.
Proof.
  unfold PyStr.of_int, NilZero.string_of_int, NilZero.string_of_uint.
  destruct (Z.to_int n) as [d|d]; destruct d; try reflexivity;
    cbn [all_chars]; apply (uint_no_slash (_ d)) || apply uint_no_slash.
Qed.

Lemma zero_pad_no_slash (width : nat) (n : Z) :
  all_chars (fun c => negb (Ascii.eqb c "/")) (zero_pad width n) = true.
Proof.
  unfold zero_pad. rewrite all_chars_app, of_int_no_slash, andb_true_r.
  induction (width - String.length (PyStr.of_int n))%nat as [|k IH]; [reflexivity|].
  cbn [List.repeat PyStr.concat]. now rewrite all_chars_app, IH.
Qed.

Lemma date_parts_no_slash (E : env) (created_at_str : value) (parts : string * string) :
  date_parts E created_at_str = Ok parts →
  all_chars (fun c => negb (Ascii.eqb c "/")) parts.1 = true
  ∧ all_chars (fun c => negb (Ascii.eqb c "/")) parts.2 = true.
Proof.
  unfold date_parts. destruct (Py.truthy created_at_str); [|intros [= <-]; now split].
  destruct (str_receiver created_at_str) as [s|e]; [|discriminate]. rewrite bind_ok.
  destruct (fromisoformat E _) as [dt|]; intros [= <-]; [|now split].
  split; [|apply of_int_no_slash]. unfold strftime_Ymd. cbn [fst].
  now rewrite !all_chars_app, !zero_pad_no_slash.
Qed.

(** X9. Whatever the title and the timestamp of a document, neither the
    year folder nor the file name computed for it contains a slash: the file
    is always placed directly in its year folder, and a title cannot point
    to another place. *)
Theorem target_has_no_slash (E : env) (doc : value) (target_dir filename : string) :
  target E doc = Ok (target_dir, filename) →
  PyStr.mem "/" target_dir = false ∧ PyStr.mem "/" filename = false.
Proof.
  intros Htarget. destruct doc as [| | | | | |d]; try discriminate Htarget.
  destruct (target_inv E d target_dir filename Htarget)
    as (parts & name & Hparts & _ & -> & ->).
  destruct (date_parts_no_slash E _ parts Hparts) as [Hprefix Hfolder].
  assert (all_chars (fun c => negb (Ascii.eqb c "/")) (sanitize_filename name) = true)
    as Hname.
  { generalize (proj1 (sanitize_filename_clean name)). apply all_chars_impl.
    intros [[] [] [] [] [] [] [] []]; cbn; intros H;
      first [reflexivity | discriminate H]. }
  split; apply all_chars_not_mem; [exact Hfolder|].
  now rewrite !all_chars_app, Hprefix, Hname.
Qed.

Lemma target_has_no_slash_witness :
  PyStr.mem "/" "2025" = false
  ∧ PyStr.mem "/" "2025-03-04 ..-..-etc-passwd.md" = false.
Proof.
  apply (target_has_no_slash example_env
           (VDict [("id", VStr "d3"); ("title", VStr "../../etc/passwd");
                   ("created_at", VStr "2025-03-04T10:00:00Z")])
           "2025" "2025-03-04 ..-..-etc-passwd.md").
  reflexivity.
Defined.

(** ** The people extractor, case by case *)

Lemma or_record (d : list (string * value)) : Py.or (VDict d) (VDict []) = VDict d.
Proof. unfold Py.or. now destruct d. Qed.

Lemma or_falsy (a b : value) : Py.truthy a = false → Py.or a b = b.
Proof. intros Ha. unfold Py.or. now rewrite Ha. Qed.

(** X10. A document without people, or with people but neither creator
    nor attendees (missing, null or empty), gives the creator [Me] without
    email and no attendee; nothing is raised. *)
Theorem extract_people_defaults (d : list (string * value)) :
  Py.truthy (Py.dget d "people" VNone) = false
  ∨ (∃ people_data,
       Py.dget d "people" VNone = VDict people_data
       ∧ Py.truthy (Py.dget people_data "creator" VNone) = false
       ∧ Py.truthy (Py.dget people_data "attendees" VNone) = false) →
  extract_people (VDict d)
  = Ok {| creator := {| name := VStr "Me"; email := VNone |}; attendees := [] |}.
Proof.
  unfold extract_people. rewrite get_dict, bind_ok.
  intros [Hpeople|(people_data & Hpeople & Hcreator & Hattendees)].
  - rewrite (or_falsy _ (VDict []) Hpeople). reflexivity.
  - rewrite Hpeople, or_record.
    rewrite (get_dict people_data "creator"), bind_ok.
    rewrite (or_falsy _ (VDict []) Hcreator).
    rewrite (get_dict [] "name"), bind_ok, (get_dict [] "email"), bind_ok.
    rewrite (get_dict people_data "attendees"), bind_ok.
    rewrite (or_falsy _ (VList []) Hattendees). reflexivity.
Qed.

Lemma extract_people_defaults_witness :
  extract_people (VDict [("id", VStr "d1");
                         ("people", VDict [("creator", VNone); ("attendees", VList [])])])
  = Ok {| creator := {| name := VStr "Me"; email := VNone |}; attendees := [] |}.
Proof.
  apply extract_people_defaults. right.
  exists [("creator", VNone); ("attendees", VList [])]. repeat split.
Defined.

Lemma extract_people_inv (doc : value) (ps : people) :
  extract_people doc = Ok ps →
  ∃ creator_name creator_email raw_attendees,
    ps = {| creator := {| name := Py.or creator_name (VStr "Me"); email := creator_email |};
            attendees := attendees ps |}
    ∧ extract_attendees raw_attendees = Ok (attendees ps)
    ∧ (∀ d people_data raw,
         doc = VDict d → Py.dget d "people" VNone = VDict people_data →
         Py.dget people_data "attendees" VNone = VList raw → raw_attendees = raw).
Proof.
  unfold extract_people.
  destruct (Py.get doc "people" VNone) as [people0|e] eqn:Hp; [|discriminate].
  rewrite bind_ok.
  destruct (Py.get (Py.or people0 (VDict [])) "creator" VNone) as [creator0|e] eqn:Hc;
    [|discriminate].
  rewrite bind_ok.
  destruct (Py.get (Py.or creator0 (VDict [])) "name" VNone) as [creator_name|e];
    [|discriminate].
  rewrite bind_ok.
  destruct (Py.get (Py.or creator0 (VDict [])) "email" VNone) as [creator_email|e];
    [|discriminate].
  rewrite bind_ok.
  destruct (Py.get (Py.or people0 (VDict [])) "attendees" VNone) as [raw0|e] eqn:Hr;
    [|discriminate].
  rewrite bind_ok.
  destruct (Py.iter (Py.or raw0 (VList []))) as [raw_attendees|e] eqn:Hiter; [|discriminate].
  rewrite bind_ok.
  destruct (extract_attendees raw_attendees) as [attendees_info|e] eqn:Hatt; [|discriminate].
  rewrite bind_ok. intros [= <-]. exists creator_name, creator_email, raw_attendees.
  split; [reflexivity|]. split; [exact Hatt|].
  intros d people_data raw -> Hpeople Hraw.
  rewrite get_dict in Hp. injection Hp as <-. rewrite Hpeople, or_record in Hr.
  rewrite get_dict in Hr. injection Hr as <-. rewrite Hraw in Hiter.
  unfold Py.or in Hiter. destruct raw; cbn in Hiter; now injection Hiter as <-.
Qed.

(** X11. The creator that [extract_people] returns always has a non-empty
    name, and with that name a microphone segment is attributed to the
    creator's name itself: the fallback of the resolver is never needed. *)
Theorem creator_name_is_never_empty (doc : value) (ps : people) :
  extract_people doc = Ok ps →
  Py.truthy (name (creator ps)) = true
  ∧ ∀ segment attendee_names,
      Py.dget segment "source" VNone = VStr "microphone" →
      resolve_speaker_name (VDict segment) (name (creator ps)) attendee_names
      = Ok (name (creator ps)).
Proof.
  intros Hps. destruct (extract_people_inv doc ps Hps)
    as (creator_name & creator_email & raw & -> & _).
  cbn [creator name].
  assert (Py.truthy (Py.or creator_name (VStr "Me")) = true) as Htruthy.
  { unfold Py.or. destruct (Py.truthy creator_name) eqn:Hc; [exact Hc | reflexivity]. }
  split; [exact Htruthy|]. intros segment attendee_names Hsource.
  unfold resolve_speaker_name. rewrite get_dict, bind_ok, Hsource.
  cbn [Py.eq_str String.eqb Ascii.eqb Bool.eqb]. cbn.
  unfold Py.or at 1. now rewrite Htruthy.
Qed.

Lemma creator_name_is_never_empty_witness :
  Py.truthy (VStr "Me") = true
  ∧ ∀ segment attendee_names,
      Py.dget segment "source" VNone = VStr "microphone" →
      resolve_speaker_name (VDict segment) (VStr "Me") attendee_names = Ok (VStr "Me").
Proof.
  apply (creator_name_is_never_empty
           (VDict [("people", VDict [("creator", VDict [("name", VStr "")])])])
           {| creator := {| name := VStr "Me"; email := VNone |}; attendees := [] |}).
  reflexivity.
Defined.

Lemma extract_attendees_emails (raw : list value) (atts : list person) :
  extract_attendees raw = Ok atts →
  List.map email atts
  = List.map (fun att => Py.dget att "email" VNone) (records_of raw).
Proof.
  revert atts. induction raw as [|att raw IH]; intros atts.
  - intros [= <-]. reflexivity.
  - cbn [extract_attendees records_of]. destruct att; try apply IH.
    destruct (attendee_name (VDict d)) as [name|e]; [|discriminate].
    rewrite bind_ok, get_dict, bind_ok.
    destruct (extract_attendees raw) as [rest|e]; [|discriminate].
    rewrite bind_ok. intros [= <-]. cbn [List.map email]. now rewrite (IH rest).
Qed.

(** X12. The attendees that [extract_people] returns are the records of
    the attendee list, one for one and in the same order, each with the email
    entry of its record; the entries that are not records are skipped. *)
Theorem attendees_follow_records (d people_data : list (string * value))
    (raw : list value) (ps : people) :
  Py.dget d "people" VNone = VDict people_data →
  Py.dget people_data "attendees" VNone = VList raw →
  extract_people (VDict d) = Ok ps →
  List.map email (attendees ps)
  = List.map (fun att => Py.dget att "email" VNone) (records_of raw)
  ∧ List.length (attendees ps) = List.length (records_of raw).
Proof.
  intros Hpeople Hraw Hps.
  destruct (extract_people_inv (VDict d) ps Hps)
    as (creator_name & creator_email & raw' & _ & Hatts & Hsame).
  rewrite (Hsame d people_data raw eq_refl Hpeople Hraw) in Hatts.
  pose proof (extract_attendees_emails raw (attendees ps) Hatts) as Hemails.
  split; [exact Hemails|].
  apply (f_equal (@List.length value)) in Hemails. now rewrite !length_map in Hemails.
Qed.

Lemma attendees_follow_records_witness :
  List.map email
    [{| name := VStr "a@x.org"; email := VStr "a@x.org" |};
     {| name := VStr "Bo"; email := VNone |}]
  = List.map (fun att => Py.dget att "email" VNone)
      (records_of [VDict [("email", VStr "a@x.org")]; VStr "skipped";
                   VDict [("details", VDict [("person", VDict [("name", VStr "Bo")])])]])
  ∧ List.length
      [{| name := VStr "a@x.org"; email := VStr "a@x.org" |};
       {| name := VStr "Bo"; email := VNone |}]
    = List.length
        (records_of [VDict [("email", VStr "a@x.org")]; VStr "skipped";
                     VDict [("details", VDict [("person", VDict [("name", VStr "Bo")])])]]).
Proof.
  apply (attendees_follow_records
           [("people",
             VDict [("attendees",
                     VList [VDict [("email", VStr "a@x.org")]; VStr "skipped";
                            VDict [("details",
                                    VDict [("person", VDict [("name", VStr "Bo")])])]])])]
           [("attendees",
             VList [VDict [("email", VStr "a@x.org")]; VStr "skipped";
                    VDict [("details", VDict [("person", VDict [("name", VStr "Bo")])])]])]
           [VDict [("email", VStr "a@x.org")]; VStr "skipped";
            VDict [("details", VDict [("person", VDict [("name", VStr "Bo")])])]]
           {| creator := {| name := VStr "Me"; email := VNone |};
              attendees := [{| name := VStr "a@x.org"; email := VStr "a@x.org" |};
                            {| name := VStr "Bo"; email := VNone |}] |});
    reflexivity.
Defined.

(** X13. The name nested in an attendee record wins over the email: a
    non-empty [fullName] of the person's name record is the attendee's name,
    and so is a person's name given as a non-empty plain string. *)
Theorem nested_name_wins_over_email (att details person : list (string * value))
    (name_obj : value) :
  Py.dget att "details" VNone = VDict details →
  Py.dget details "person" VNone = VDict person →
  Py.dget person "name" VNone = name_obj →
  (∀ names, name_obj = VDict names →
     Py.truthy (Py.dget names "fullName" VNone) = true →
     attendee_name (VDict att) = Ok (Py.dget names "fullName" VNone))
  ∧ (∀ plain, name_obj = VStr plain → plain ≠ "" →
     attendee_name (VDict att) = Ok (VStr plain)).
Proof.
  intros Hdetails Hperson Hname.
  assert (name_obj_of (VDict att) = Ok (Py.or name_obj (VDict []))) as Hobj.
  { unfold name_obj_of. rewrite get_dict, bind_ok, Hdetails, or_record.
    rewrite (get_dict details "person"), bind_ok, Hperson, or_record.
    rewrite (get_dict person "name"), bind_ok, Hname. reflexivity. }
  split.
  - intros names -> Hfull. unfold attendee_name.
    rewrite get_dict, bind_ok, Hobj, bind_ok, or_record.
    rewrite (get_dict names "fullName"), bind_ok, Hfull. reflexivity.
  - intros plain -> Hplain. unfold attendee_name.
    rewrite get_dict, bind_ok, Hobj, bind_ok. unfold Py.or. cbn [Py.truthy].
    destruct (String.eqb_spec plain ""); [contradiction|]. reflexivity.
Qed.

Lemma nested_name_wins_over_email_witness :
  attendee_name
    (VDict [("email", VStr "ann@x.org");
            ("details",
             VDict [("person", VDict [("name", VDict [("fullName", VStr "Ann Lee")])])])])
  = Ok (VStr "Ann Lee").
Proof.
  apply (proj1 (nested_name_wins_over_email
                  [("email", VStr "ann@x.org");
                   ("details",
                    VDict [("person",
                            VDict [("name", VDict [("fullName", VStr "Ann Lee")])])])]
                  [("person", VDict [("name", VDict [("fullName", VStr "Ann Lee")])])]
                  [("name", VDict [("fullName", VStr "Ann Lee")])]
                  (VDict [("fullName", VStr "Ann Lee")])
                  eq_refl eq_refl eq_refl)
           [("fullName", VStr "Ann Lee")] eq_refl eq_refl).
Defined.

(** ** The transcript formatter on bodies that are not lists *)

(** X14. A transcript body that is truthy and not a list always makes
    [format_transcript] raise: [TypeError] for a number or [True], and
    [AttributeError] for a non-empty string or object, whose characters or
    keys are taken for segments. *)
Theorem format_transcript_needs_list (body creator_name : value)
    (attendee_names : list value) :
  Py.truthy body = true →
  (∀ l, body ≠ VList l) →
  format_transcript body creator_name attendee_names
  = Raise (match body with
           | VStr _ | VDict _ => AttributeError
           | _ => TypeError
           end).
Proof.
  intros Htruthy Hlist. unfold format_transcript. rewrite Htruthy. cbn [negb].
  destruct body as [| | | |s|l|d]; try reflexivity; try discriminate Htruthy.
  - destruct s; [discriminate Htruthy | reflexivity].
  - now destruct (Hlist l).
  - destruct d as [|[k v] d]; [discriminate Htruthy | reflexivity].
Qed.

Lemma format_transcript_needs_list_witness :
  format_transcript (VDict [("message", VStr "Unauthorized")]) (VStr "Me") []
  = Raise AttributeError.
Proof.
  apply (format_transcript_needs_list (VDict [("message", VStr "Unauthorized")])
           (VStr "Me") []); [reflexivity | discriminate].
Defined.

(** ** The sync step, case by case *)

(** X15. A document without an id (missing, null, empty or zero) is
    rejected at once: [sync_document] returns failure and the world is
    exactly as before, with no folder made, no request sent and nothing
    logged. *)
Theorem document_without_id_is_rejected (E : env) (d : list (string * value))
    (token : string) (w : world) :
  Py.truthy (Py.dget d "id" VNone) = false →
  sync_document E (VDict d) token w = (Ok false, w).
Proof.
  intros Hid. unfold sync_document.
  rewrite lift_bind, get_dict, lift_bind, get_dict, lift_bind, get_dict.
  now rewrite Hid.
Qed.

Lemma document_without_id_is_rejected_witness :
  sync_document example_env
    (VDict [("id", VStr ""); ("title", VStr "Team Sync");
            ("created_at", VStr "2025-03-04T10:00:00Z")]) "token" empty_world
  = (Ok false, empty_world).
Proof. apply document_without_id_is_rejected. reflexivity. Defined.

(** X16. When the year folder is missing and cannot be made, the step
    fails after logging the failure: no transcript is requested and no file
    is touched, whatever the title is. *)
Theorem mkdir_failure_stops_the_step (E : env) (d : list (string * value))
    (token : string) (w : world) (parts : string * string) :
  Py.truthy (Py.dget d "id" VNone) = true →
  date_parts E (Py.dget d "created_at" (VStr "")) = Ok parts →
  ¬ exists_at w parts.2 →
  mkdir_ok E parts.2 = false →
  sync_document E (VDict d) token w
  = (Ok false, {| files := files w; dirs := dirs w; fetched := fetched w;
                  log := log w ++ [MkdirFailed parts.2] |}).
Proof.
  intros Hid Hparts Hdir Hmkdir. unfold sync_document.
  rewrite lift_bind, get_dict, lift_bind, get_dict, lift_bind, get_dict.
  rewrite Hid. cbn [negb]. rewrite lift_bind, Hparts.
  rewrite M_bind_unfold. unfold ensure_dir.
  rewrite M_bind_unfold, (path_exists_false _ w Hdir).
  rewrite M_bind_unfold. unfold mkdir. rewrite Hmkdir. reflexivity.
Qed.

Lemma mkdir_failure_stops_the_step_witness :
  sync_document
    {| fromisoformat := fromisoformat example_env;
       post_transcript := post_transcript example_env;
       mkdir_ok := fun _ => false;
       write_file_outcome := write_file_outcome example_env |}
    (team_sync_doc VNone) "token" empty_world
  = (Ok false, {| files := ∅; dirs := ∅; fetched := []; log := [MkdirFailed "2025"] |}).
Proof.
  apply (mkdir_failure_stops_the_step
           {| fromisoformat := fromisoformat example_env;
              post_transcript := post_transcript example_env;
              mkdir_ok := fun _ => false;
              write_file_outcome := write_file_outcome example_env |}
           [("id", VStr "d1"); ("title", VStr "Team Sync");
            ("created_at", VStr "2025-03-04T10:00:00Z");
            ("last_viewed_panel", VNone);
            ("people", VDict [("creator", VDict [("name", VStr "Me")]);
                              ("attendees", VList [])])]
           "token" empty_world ("2025-03-04", "2025")).
  - reflexivity.
  - reflexivity.
  - intros [Hdir|[content Hfile]]; [set_solver | discriminate Hfile].
  - reflexivity.
Defined.

(** X17. The default title [Untitled] is used only when the title is
    missing: then the file name is the date prefix followed by
    [Untitled.md].  A title that is present but not a str, such as null,
    makes the step raise [AttributeError] once the year folder is there,
    before any transcript request and without writing a file. *)
Theorem title_must_be_a_str (E : env) (d : list (string * value)) (token : string)
    (w : world) (parts : string * string) :
  Py.truthy (Py.dget d "id" VNone) = true →
  date_parts E (Py.dget d "created_at" (VStr "")) = Ok parts →
  (Py.lookup d "title" = None →
     target E (VDict d) = Ok (parts.2, parts.1 +:+ " Untitled.md"))
  ∧ (∀ title, Py.lookup d "title" = Some title → (∀ s, title ≠ VStr s) →
       exists_at w parts.2 ∨ mkdir_ok E parts.2 = true →
       target E (VDict d) = Raise AttributeError
       ∧ ∃ w', sync_document E (VDict d) token w = (Raise AttributeError, w')
               ∧ files w' = files w ∧ fetched w' = fetched w).
Proof.
  intros Hid Hparts. split.
  - intros Htitle. unfold target.
    rewrite (get_dict d "title"), bind_ok, (get_dict d "created_at"), bind_ok.
    rewrite Hparts, bind_ok. unfold Py.dget. rewrite Htitle. reflexivity.
  - intros title Htitle Hstr Hdir.
    assert (str_receiver (Py.dget d "title" (VStr "Untitled")) = Raise AttributeError)
      as Hreceiver.
    { unfold Py.dget. rewrite Htitle. cbn [default id].
      destruct title; try reflexivity. now destruct (Hstr s). }
    split.
    + unfold target.
      rewrite (get_dict d "title"), bind_ok, (get_dict d "created_at"), bind_ok.
      now rewrite Hparts, bind_ok, Hreceiver.
    + destruct (ensure_dir_ok E _ w Hdir) as (w1 & Hensure & Hf1 & Hr1 & _).
      exists w1. unfold sync_document.
      rewrite lift_bind, get_dict, lift_bind, get_dict, lift_bind, get_dict.
      rewrite Hid. cbn [negb]. rewrite lift_bind, Hparts.
      rewrite M_bind_unfold, Hensure. cbn [negb].
      rewrite lift_bind, Hreceiver. auto.
Qed.

Lemma title_must_be_a_str_witness :
  target example_env (VDict [("id", VStr "d4"); ("title", VNone)])
    = Raise AttributeError
  ∧ ∃ w', sync_document example_env (VDict [("id", VStr "d4"); ("title", VNone)])
            "token" empty_world
          = (Raise AttributeError, w')
          ∧ files w' = files empty_world ∧ fetched w' = fetched empty_world.
Proof.
  apply (proj2 (title_must_be_a_str example_env [("id", VStr "d4"); ("title", VNone)]
                  "token" empty_world ("0000-00-00", "Unknown_Year")
                  eq_refl eq_refl) VNone).
  - reflexivity.
  - discriminate.
  - right. reflexivity.
Defined.

(** *** Files are never overwritten *)

Lemma same_files_ret {A : Type} (a : A) : same_files (mret a).
Proof. intros w. reflexivity. Qed.

Lemma same_files_lift {A : Type} (r : result A) : same_files (lift r).
Proof. intros w. reflexivity. Qed.

Lemma same_files_logger (entry : log_entry) : same_files (logger entry).
Proof. intros w. reflexivity. Qed.

Lemma same_files_bind {A B : Type} (m : M A) (f : A → M B) :
  same_files m → (∀ a, same_files (f a)) → same_files (m ≫= f).
Proof.
  intros Hm Hf w. rewrite M_bind_unfold. specialize (Hm w).
  destruct (m w) as [[a|e] w1]; cbn [snd] in *; [|exact Hm].
  now rewrite Hf.
Qed.

Lemma same_files_ensure_dir (E : env) (target_dir : string) :
  same_files (ensure_dir E target_dir).
Proof.
  unfold ensure_dir. apply same_files_bind; [intros w; reflexivity|].
  intros [|]; [apply same_files_ret|]. apply same_files_bind.
  - intros w. unfold mkdir. now destruct (mkdir_ok E target_dir).
  - intros [|]; [apply same_files_ret|]. apply same_files_bind;
      [apply same_files_logger | intros _; apply same_files_ret].
Qed.

Lemma same_files_fetch_transcript (E : env) (token : string) (doc_id : value) :
  same_files (fetch_transcript E token doc_id).
Proof.
  unfold fetch_transcript. apply same_files_bind; [intros w; reflexivity|]. intros _.
  destruct (post_transcript E token doc_id); try apply same_files_ret.
  apply same_files_bind; [apply same_files_logger | intros _; apply same_files_ret].
Qed.

Lemma keeps_content_same {A : Type} (m : M A) : same_files m → keeps_content m.
Proof. intros Hm w path content. now rewrite Hm. Qed.

Lemma keeps_content_bind {A B : Type} (m : M A) (f : A → M B) :
  keeps_content m → (∀ a, keeps_content (f a)) → keeps_content (m ≫= f).
Proof.
  intros Hm Hf w path content Hfile. rewrite M_bind_unfold. specialize (Hm w path content Hfile).
  destruct (m w) as [[a|e] w1]; cbn [snd] in *; [|exact Hm].
  now apply Hf.
Qed.

Lemma fresh_write_bind {A B : Type} (filepath : string) (m : M A) (f : A → M B) :
  same_files m → (∀ a, fresh_write filepath (f a)) → fresh_write filepath (m ≫= f).
Proof.
  intros Hm Hf w Hfresh path content Hfile. rewrite M_bind_unfold. specialize (Hm w).
  destruct (m w) as [[a|e] w1]; cbn [snd] in *; [|now rewrite Hm].
  apply Hf; now rewrite Hm.
Qed.

Lemma fresh_write_write_file {B : Type} (E : env) (filepath content : string)
    (f : bool → M B) :
  (∀ saved, same_files (f saved)) →
  fresh_write filepath (write_file E filepath content ≫= f).
Proof.
  intros Hf w Hfresh path other Hfile. rewrite M_bind_unfold. unfold write_file.
  assert (filepath ≠ path) as Hne by (intros ->; congruence).
  destruct (write_file_outcome E filepath content); rewrite Hf; cbn;
    rewrite ?lookup_insert_ne by exact Hne; exact Hfile.
Qed.

Lemma fresh_write_download_document (E : env) (doc : value) (token : string)
    (doc_id title created_at_str : value) (filename filepath : string) :
  fresh_write filepath
    (download_document E doc token doc_id title created_at_str filename filepath).
Proof.
  unfold download_document.
  apply fresh_write_bind; [apply same_files_logger|]. intros _.
  apply fresh_write_bind; [apply same_files_lift|]. intros markdown_notes.
  apply fresh_write_bind; [apply same_files_fetch_transcript|]. intros transcript_data.
  apply fresh_write_bind; [apply same_files_lift|]. intros ps.
  apply fresh_write_bind; [apply same_files_lift|]. intros transcript_text.
  apply fresh_write_bind; [apply same_files_lift|]. intros title_str.
  apply fresh_write_bind; [apply same_files_lift|]. intros with_notes.
  apply fresh_write_write_file. intros [|]; [apply same_files_ret|].
  apply same_files_bind; [apply same_files_logger | intros _; apply same_files_ret].
Qed.

Lemma keeps_content_sync_document (E : env) (doc : value) (token : string) :
  keeps_content (sync_document E doc token).
Proof.
  unfold sync_document.
  apply keeps_content_bind; [apply keeps_content_same, same_files_lift|]. intros doc_id.
  apply keeps_content_bind; [apply keeps_content_same, same_files_lift|]. intros title.
  apply keeps_content_bind; [apply keeps_content_same, same_files_lift|].
  intros created_at_str.
  destruct (negb (Py.truthy doc_id)); [apply keeps_content_same, same_files_ret|].
  apply keeps_content_bind; [apply keeps_content_same, same_files_lift|]. intros parts.
  apply keeps_content_bind; [apply keeps_content_same, same_files_ensure_dir|].
  intros [|]; [|apply keeps_content_same, same_files_ret]. cbn [negb].
  apply keeps_content_bind; [apply keeps_content_same, same_files_lift|]. intros name.
  intros w path content Hfile. rewrite M_bind_unfold. unfold path_exists.
  destruct (decide (exists_at w
              (path_of parts.2 (parts.1 +:+ " " +:+ sanitize_filename name +:+ ".md"))))
    as [Hex|Hex].
  - rewrite bool_decide_eq_true_2 by exact Hex. exact Hfile.
  - rewrite bool_decide_eq_false_2 by exact Hex.
    apply fresh_write_download_document; [|exact Hfile].
    apply eq_None_not_Some. intros Hsome. apply Hex. now right.
Qed.

Lemma keeps_content_sync_documents (E : env) (documents : list value) (token : string)
    (success_count : nat) :
  keeps_content (sync_documents E documents token success_count).
Proof.
  revert success_count. induction documents as [|doc rest IH]; intros success_count.
  - apply keeps_content_same, same_files_ret.
  - intros w path content Hfile. cbn [sync_documents].
    pose proof (keeps_content_sync_document E doc token w path content Hfile) as Hdoc.
    destruct (sync_document E doc token w) as [[saved|e] w1]; cbn [snd] in Hdoc.
    + now apply IH.
    + revert w1 Hdoc.
      enough (keeps_content
                (title ← lift (Py.get doc "title" VNone);
                 logger (CriticalError (Py.str title));;
                 sync_documents E rest token success_count)) as Hhandler
        by (intros w1; apply Hhandler).
      apply keeps_content_bind; [apply keeps_content_same, same_files_lift|].
      intros title.
      apply keeps_content_bind; [apply keeps_content_same, same_files_logger|].
      intros _. apply IH.
Qed.

(** X18. No file that exists is ever rewritten: whatever the documents,
    the environment and the outcome (success, failure or exception), every
    file present before [sync_document], or before a whole pass, has the same
    content afterwards. *)
Theorem existing_files_keep_their_content (E : env) (token : string) (w : world)
    (path content : string) :
  files w !! path = Some content →
  (∀ doc, files (sync_document E doc token w).2 !! path = Some content)
  ∧ (∀ documents success_count,
       files (sync_documents E documents token success_count w).2 !! path
       = Some content).
Proof.
  intros Hfile. split.
  - intros doc. now apply keeps_content_sync_document.
  - intros documents success_count. now apply keeps_content_sync_documents.
Qed.

Lemma existing_files_keep_their_content_witness :
  files (sync_document example_env (team_sync_doc (VDict [])) "token"
           {| files := {["2025/2025-03-04 Team Sync.md" := "edited by hand"]};
              dirs := {["2025"]}; fetched := []; log := [] |}).2
    !! "2025/2025-03-04 Team Sync.md"
  = Some "edited by hand".
Proof.
  destruct (existing_files_keep_their_content example_env "token"
              {| files := {["2025/2025-03-04 Team Sync.md" := "edited by hand"]};
                 dirs := {["2025"]}; fetched := []; log := [] |}
              "2025/2025-03-04 Team Sync.md" "edited by hand") as [Hdoc _].
  - apply lookup_singleton_eq.
  - apply Hdoc.
Defined.

(** *** Transcript requests *)

Lemma no_request_ret {A : Type} (a : A) : no_request (mret a).
Proof. intros w. reflexivity. Qed.

Lemma no_request_lift {A : Type} (r : result A) : no_request (lift r).
Proof. intros w. reflexivity. Qed.

Lemma no_request_logger (entry : log_entry) : no_request (logger entry).
Proof. intros w. reflexivity. Qed.

Lemma no_request_bind {A B : Type} (m : M A) (f : A → M B) :
  no_request m → (∀ a, no_request (f a)) → no_request (m ≫= f).
Proof.
  intros Hm Hf w. rewrite M_bind_unfold. specialize (Hm w).
  destruct (m w) as [[a|e] w1]; cbn [snd] in *; [|exact Hm].
  now rewrite Hf.
Qed.

Lemma no_request_ensure_dir (E : env) (target_dir : string) :
  no_request (ensure_dir E target_dir).
Proof.
  unfold ensure_dir. apply no_request_bind; [intros w; reflexivity|].
  intros [|]; [apply no_request_ret|]. apply no_request_bind.
  - intros w. unfold mkdir. now destruct (mkdir_ok E target_dir).
  - intros [|]; [apply no_request_ret|]. apply no_request_bind;
      [apply no_request_logger | intros _; apply no_request_ret].
Qed.

Lemma no_request_write_file (E : env) (filepath content : string) :
  no_request (write_file E filepath content).
Proof. intros w. unfold write_file. now destruct (write_file_outcome E filepath content). Qed.

Lemma one_request_quiet {A : Type} (doc_id : value) (m : M A) :
  no_request m → one_request doc_id m.
Proof. intros Hm w. left. apply Hm. Qed.

Lemma one_request_after {A B : Type} (doc_id : value) (m : M A) (f : A → M B) :
  no_request m → (∀ a, one_request doc_id (f a)) → one_request doc_id (m ≫= f).
Proof.
  intros Hm Hf w. rewrite M_bind_unfold. specialize (Hm w).
  destruct (m w) as [[a|e] w1]; cbn [snd] in *; [|now left].
  rewrite <- Hm. apply Hf.
Qed.

Lemma one_request_before {A B : Type} (doc_id : value) (m : M A) (f : A → M B) :
  one_request doc_id m → (∀ a, no_request (f a)) → one_request doc_id (m ≫= f).
Proof.
  intros Hm Hf w. rewrite M_bind_unfold. specialize (Hm w).
  destruct (m w) as [[a|e] w1]; cbn [snd] in *; [|exact Hm].
  now rewrite Hf.
Qed.

Lemma one_request_fetch_transcript (E : env) (token : string) (doc_id : value) :
  one_request doc_id (fetch_transcript E token doc_id).
Proof.
  intros w. right.
  destruct (fetch_transcript_request E token doc_id w) as (w1 & -> & _ & _ & Hfetched).
  exact Hfetched.
Qed.

Lemma no_request_save (E : env) (filename filepath : string) (full_content : string) :
  no_request (saved ← write_file E filepath full_content;
              if (saved : bool) then mret true
              else logger (WriteFileFailed filename);; mret false).
Proof.
  apply no_request_bind; [apply no_request_write_file|].
  intros [|]; [apply no_request_ret|].
  apply no_request_bind; [apply no_request_logger | intros _; apply no_request_ret].
Qed.

Lemma one_request_download_document (E : env) (doc : value) (token : string)
    (doc_id title created_at_str : value) (filename filepath : string) :
  one_request doc_id
    (download_document E doc token doc_id title created_at_str filename filepath).
Proof.
  unfold download_document.
  apply one_request_after; [apply no_request_logger|]. intros _.
  apply one_request_after; [apply no_request_lift|]. intros markdown_notes.
  apply one_request_before; [apply one_request_fetch_transcript|]. intros transcript_data.
  apply no_request_bind; [apply no_request_lift|]. intros ps.
  apply no_request_bind; [apply no_request_lift|]. intros transcript_text.
  apply no_request_bind; [apply no_request_lift|]. intros title_str.
  apply no_request_bind; [apply no_request_lift|]. intros with_notes.
  apply no_request_save.
Qed.

Lemma one_request_sync_document (E : env) (d : list (string * value)) (token : string) :
  one_request (Py.dget d "id" VNone) (sync_document E (VDict d) token).
Proof.
  intros w. unfold sync_document.
  rewrite lift_bind, get_dict, lift_bind, get_dict, lift_bind, get_dict.
  destruct (negb (Py.truthy (Py.dget d "id" VNone))); [now left|].
  revert w. apply one_request_after; [apply no_request_lift|]. intros parts.
  apply one_request_after; [apply no_request_ensure_dir|].
  intros [|]; [|apply one_request_quiet, no_request_ret]. cbn [negb].
  apply one_request_after; [apply no_request_lift|]. intros name.
  apply one_request_after; [intros w; reflexivity|].
  intros [|]; [|apply one_request_download_document].
  apply one_request_quiet, no_request_bind;
    [apply no_request_logger | intros _; apply no_request_ret].
Qed.

Lemma sync_document_not_a_record (E : env) (doc : value) (token : string) (w : world) :
  (∀ d, doc ≠ VDict d) →
  sync_document E doc token w = (Raise AttributeError, w).
Proof.
  intros Hdoc. unfold sync_document. rewrite lift_bind.
  destruct doc; try reflexivity. now destruct (Hdoc d).
Qed.

Lemma sync_document_requests (E : env) (doc : value) (token : string) (w : world) :
  ∃ l, fetched (sync_document E doc token w).2 = (fetched w ++ l)%list
       ∧ (List.length l ≤ 1)%nat.
Proof.
  destruct doc as [| | | | | |d].
  1-6: exists []; rewrite sync_document_not_a_record by discriminate;
       cbn; rewrite app_nil_r; auto.
  destruct (one_request_sync_document E d token w) as [->| ->].
  - exists []. rewrite app_nil_r. cbn. auto.
  - eexists [_]. cbn. auto.
Qed.

Lemma sync_documents_requests (E : env) (documents : list value) (token : string)
    (success_count : nat) (w : world) :
  ∃ l, fetched (sync_documents E documents token success_count w).2
       = (fetched w ++ l)%list
       ∧ (List.length l ≤ List.length documents)%nat.
Proof.
  revert success_count w. induction documents as [|doc rest IH]; intros success_count w.
  - exists []. cbn. rewrite app_nil_r. auto.
  - cbn [sync_documents].
    destruct (sync_document_requests E doc token w) as (l1 & Hl1 & Hlen1).
    destruct (sync_document E doc token w) as [[saved|e] w1]; cbn [snd] in Hl1.
    + destruct (IH (if saved then S success_count else success_count) w1)
        as (l2 & -> & Hlen2).
      exists (l1 ++ l2)%list. rewrite Hl1, app_assoc, length_app. cbn. split; [auto | lia].
    + rewrite lift_bind. destruct (Py.get doc "title" VNone) as [title|e'].
      * rewrite M_bind_unfold. cbn [logger].
        match goal with |- context [sync_documents E rest token success_count ?w0] =>
          destruct (IH success_count w0) as (l2 & -> & Hlen2)
        end.
        exists (l1 ++ l2)%list. cbn [fetched]. rewrite Hl1, app_assoc, length_app.
        cbn. split; [auto | lia].
      * exists l1. cbn. split; [exact Hl1 | lia].
Qed.

(** X19. One call of [sync_document] sends at most one transcript request,
    and then for the id of its own document; a whole pass sends at most as
    many requests as there are documents, and the requests already made are
    kept in their order. *)
Theorem at_most_one_request_per_document (E : env) (token : string) (w : world) :
  (∀ d, fetched (sync_document E (VDict d) token w).2 = fetched w
        ∨ fetched (sync_document E (VDict d) token w).2
          = (fetched w ++ [Py.dget d "id" VNone])%list)
  ∧ (∀ documents success_count,
       ∃ l, fetched (sync_documents E documents token success_count w).2
            = (fetched w ++ l)%list
            ∧ (List.length l ≤ List.length documents)%nat).
Proof.
  split.
  - intros d. apply one_request_sync_document.
  - intros documents success_count. apply sync_documents_requests.
Qed.

(** *** Two documents, one file *)

(** X20. Two documents with the same target share one file: once the first
    is saved, [sync_document] on the second, if it has an id, reports success
    without requesting its transcript and without writing anything, so the
    second document's notes never reach the disk. *)
Theorem same_target_second_is_skipped (E : env) (first second : value)
    (token : string) (w w1 : world) (d : list (string * value)) :
  second = VDict d →
  Py.truthy (Py.dget d "id" VNone) = true →
  target E second = target E first →
  sync_document E first token w = (Ok true, w1) →
  ∃ w2, sync_document E second token w1 = (Ok true, w2)
        ∧ files w2 = files w1 ∧ dirs w2 = dirs w1 ∧ fetched w2 = fetched w1.
Proof.
  intros -> Hid Hsame Hfirst.
  apply sync_document_saved in Hfirst
    as (d1 & target_dir & filename & -> & _ & Htarget & Hdir & Hfile).
  apply sync_document_synced.
  exists d, target_dir, filename. repeat split; auto. now rewrite Hsame.
Qed.

Lemma same_target_second_is_skipped_witness :
  ∃ w2,
    sync_document example_env
      (VDict [("id", VStr "d9"); ("title", VStr "Team: Sync");
              ("created_at", VStr "2025-03-04T10:00:00Z")]) "token"
      (sync_document example_env (team_sync_doc (VDict [])) "token" empty_world).2
    = (Ok true, w2)
    ∧ files w2
      = files (sync_document example_env (team_sync_doc (VDict [])) "token" empty_world).2
    ∧ dirs w2
      = dirs (sync_document example_env (team_sync_doc (VDict [])) "token" empty_world).2
    ∧ fetched w2 = [VStr "d1"].
Proof.
  apply (same_target_second_is_skipped example_env (team_sync_doc (VDict []))
           (VDict [("id", VStr "d9"); ("title", VStr "Team: Sync");
                   ("created_at", VStr "2025-03-04T10:00:00Z")])
           "token" empty_world
           (sync_document example_env (team_sync_doc (VDict [])) "token" empty_world).2
           [("id", VStr "d9"); ("title", VStr "Team: Sync");
            ("created_at", VStr "2025-03-04T10:00:00Z")]);
    reflexivity.
Defined.

(** *** After the transcript request *)




(** The step of a document whose extraction or formatting raises: the
    request is sent, the exception leaves the step and nothing is at the
    target path afterwards. *)
Lemma raise_after_request (E : env) (d : list (string * value))
    (token : string) (w : world) (target_dir filename notes : string) (e : exn) :
  Py.truthy (Py.dget d "id" VNone) = true →
  target E (VDict d) = Ok (target_dir, filename) →
  exists_at w target_dir ∨ mkdir_ok E target_dir = true →
  ¬ exists_at w (path_of target_dir filename) →
  markdown_notes_of (VDict d) = Ok (VStr notes) →
  (ps ← extract_people (VDict d);
   format_transcript
     (match post_transcript E token (Py.dget d "id" VNone) with
      | Json body => body
      | _ => VNone
      end) (name (creator ps)) (List.map name (attendees ps))) = Raise e →
  ∃ w1, sync_document E (VDict d) token w = (Raise e, w1)
        ∧ files w1 = files w
        ∧ fetched w1 = (fetched w ++ [Py.dget d "id" VNone])%list
        ∧ exists_at w1 target_dir
        ∧ ¬ exists_at w1 (path_of target_dir filename).
Proof.
  intros Hid Htarget Hdir Hfile Hnotes Hraise.
  destruct (target_inv E d target_dir filename Htarget)
    as (parts & name & Hparts & Hname & Hdir_eq & Hfile_eq).
  destruct (ensure_dir_ok E _ w Hdir) as (w0 & Hensure & Hf0 & Hr0 & Hl0 & Hd0 & Hnew).
  assert (¬ exists_at w0 (path_of target_dir filename)) as Hfile0.
  { intros Hex. apply Hnew in Hex as [Hex|Hex]; [now apply Hfile|].
    now apply path_of_neq in Hex. }
  unfold sync_document.
  rewrite lift_bind, get_dict, lift_bind, get_dict, lift_bind, get_dict.
  rewrite Hid. cbn [negb]. rewrite lift_bind, Hparts.
  rewrite M_bind_unfold. rewrite <- Hdir_eq, Hensure. cbn [negb].
  rewrite lift_bind, Hname. rewrite M_bind_unfold.
  rewrite <- Hfile_eq, (path_exists_false _ w0 Hfile0).
  unfold download_document. rewrite M_bind_unfold. cbn [logger].
  rewrite lift_bind, Hnotes. rewrite M_bind_unfold.
  match goal with |- context [fetch_transcript E token ?i ?w'] =>
    destruct (fetch_transcript_request E token i w') as (w2 & -> & Hf2 & Hd2 & Hr2)
  end.
  cbn in Hf2, Hd2, Hr2. exists w2.
  assert (files w2 = files w ∧ fetched w2 = (fetched w ++ [Py.dget d "id" VNone])%list
          ∧ exists_at w2 target_dir
          ∧ ¬ exists_at w2 (path_of target_dir filename)) as Hworld.
  { rewrite Hf2, Hr2, Hf0, Hr0. repeat split; unfold exists_at; rewrite Hd2, Hf2;
      [exact Hd0 | exact Hfile0]. }
  split; [|exact Hworld].
  rewrite lift_bind. destruct (extract_people (VDict d)) as [ps|e'].
  - rewrite bind_ok in Hraise. now rewrite lift_bind, Hraise.
  - now injection Hraise as <-.
Qed.

(** X22. When the people record or the transcript body makes the
    extraction or the formatting raise, the exception leaves
    [sync_document] after the transcript request has been sent and before
    any file is written; the document stays without a file, and the next
    call for it sends the request again and raises again, so every pass pays
    one request for such a document.  The target path is one that can be
    written. *)
Theorem exception_after_the_request (E : env) (d : list (string * value))
    (token : string) (w : world) (target_dir filename notes : string) (e : exn) :
  Py.truthy (Py.dget d "id" VNone) = true →
  target E (VDict d) = Ok (target_dir, filename) →
  exists_at w target_dir ∨ mkdir_ok E target_dir = true →
  ¬ exists_at w (path_of target_dir filename) →
  (∀ content, write_file_outcome E (path_of target_dir filename) content = Written) →
  markdown_notes_of (VDict d) = Ok (VStr notes) →
  (ps ← extract_people (VDict d);
   format_transcript
     (match post_transcript E token (Py.dget d "id" VNone) with
      | Json body => body
      | _ => VNone
      end) (name (creator ps)) (List.map name (attendees ps))) = Raise e →
  ∃ w1 w2,
    sync_document E (VDict d) token w = (Raise e, w1)
    ∧ files w1 = files w
    ∧ fetched w1 = (fetched w ++ [Py.dget d "id" VNone])%list
    ∧ ¬ exists_at w1 (path_of target_dir filename)
    ∧ sync_document E (VDict d) token w1 = (Raise e, w2)
    ∧ files w2 = files w
    ∧ fetched w2 = (fetched w ++ [Py.dget d "id" VNone; Py.dget d "id" VNone])%list
    ∧ ¬ exists_at w2 (path_of target_dir filename).
Proof.
  intros Hid Htarget Hdir Hfile _ Hnotes Hraise.
  destruct (raise_after_request E d token w target_dir filename notes e
              Hid Htarget Hdir Hfile Hnotes Hraise)
    as (w1 & Hrun1 & Hf1 & Hr1 & Hd1 & Hfile1).
  destruct (raise_after_request E d token w1 target_dir filename notes e
              Hid Htarget (or_introl Hd1) Hfile1 Hnotes Hraise)
    as (w2 & Hrun2 & Hf2 & Hr2 & _ & Hfile2).
  exists w1, w2. repeat split; auto.
  - congruence.
  - rewrite Hr2, Hr1, <- app_assoc. reflexivity.
Qed.

Lemma exception_after_the_request_witness :
  ∃ w1 w2,
    sync_document
      {| fromisoformat := fromisoformat example_env;
         post_transcript := fun _ _ => Json (VDict [("message", VStr "Unauthorized")]);
         mkdir_ok := mkdir_ok example_env;
         write_file_outcome := write_file_outcome example_env |}
      (team_sync_doc (VDict [])) "token" empty_world
    = (Raise AttributeError, w1)
    ∧ files w1 = files empty_world
    ∧ fetched w1 = (fetched empty_world ++ [VStr "d1"])%list
    ∧ ¬ exists_at w1 (path_of "2025" "2025-03-04 Team Sync.md")
    ∧ sync_document
        {| fromisoformat := fromisoformat example_env;
           post_transcript := fun _ _ => Json (VDict [("message", VStr "Unauthorized")]);
           mkdir_ok := mkdir_ok example_env;
           write_file_outcome := write_file_outcome example_env |}
        (team_sync_doc (VDict [])) "token" w1
      = (Raise AttributeError, w2)
    ∧ files w2 = files empty_world
    ∧ fetched w2 = (fetched empty_world ++ [VStr "d1"; VStr "d1"])%list
    ∧ ¬ exists_at w2 (path_of "2025" "2025-03-04 Team Sync.md").
Proof.
  apply (exception_after_the_request
           {| fromisoformat := fromisoformat example_env;
              post_transcript := fun _ _ => Json (VDict [("message", VStr "Unauthorized")]);
              mkdir_ok := mkdir_ok example_env;
              write_file_outcome := write_file_outcome example_env |}
           [("id", VStr "d1"); ("title", VStr "Team Sync");
            ("created_at", VStr "2025-03-04T10:00:00Z");
            ("last_viewed_panel", VDict []);
            ("people", VDict [("creator", VDict [("name", VStr "Me")]);
                              ("attendees", VList [])])]
           "token" empty_world "2025" "2025-03-04 Team Sync.md" "" AttributeError);
    try reflexivity.
  - right. reflexivity.
  - intros [Hdir|[content Hcontent]]; [set_solver | discriminate Hcontent].
Defined.

(** ** The loop over the documents *)

Lemma sync_documents_app (E : env) (first second : list value) (token : string)
    (success_count : nat) (w : world) :
  sync_documents E (first ++ second) token success_count w
  = (n ← sync_documents E first token success_count; sync_documents E second token n) w.
Proof.
  revert success_count w. induction first as [|doc rest IH]; intros success_count w.
  - reflexivity.
  - rewrite M_bind_unfold. cbn [app sync_documents].
    destruct (sync_document E doc token w) as [[saved|e] w1].
    + rewrite IH. now rewrite M_bind_unfold.
    + rewrite !lift_bind. destruct (Py.get doc "title" VNone) as [title|e']; [|reflexivity].
      rewrite !M_bind_unfold. cbn [logger]. rewrite IH. now rewrite M_bind_unfold.
Qed.

Lemma sync_documents_records (E : env) (documents : list value) (token : string)
    (success_count : nat) (w : world) :
  Forall (fun doc => ∃ d, doc = VDict d) documents →
  ∃ n w', sync_documents E documents token success_count w = (Ok n, w')
          ∧ (success_count ≤ n ≤ success_count + List.length documents)%nat.
Proof.
  intros Hrecords. revert success_count w.
  induction Hrecords as [|doc rest [d ->] _ IH]; intros success_count w.
  - exists success_count, w. cbn. split; [reflexivity | lia].
  - cbn [sync_documents].
    destruct (sync_document E (VDict d) token w) as [[saved|e] w1].
    + destruct (IH (if saved then S success_count else success_count) w1)
        as (n & w' & -> & Hn).
      exists n, w'. split; [reflexivity|]. destruct saved; cbn; lia.
    + rewrite lift_bind, get_dict, M_bind_unfold. cbn [logger].
      match goal with |- context [sync_documents E rest token success_count ?w0] =>
        destruct (IH success_count w0) as (n & w' & -> & Hn)
      end.
      exists n, w'. split; [reflexivity|]. cbn; lia.
Qed.

(** X24. When every document is a record, the pass never raises: whatever
    happens inside a document, the pass returns a count, and the count grows
    by at most one per document. *)
Theorem pass_over_records_returns (E : env) (documents : list value) (token : string)
    (success_count : nat) (w : world) :
  Forall (fun doc => ∃ d, doc = VDict d) documents →
  ∃ n w', sync_documents E documents token success_count w = (Ok n, w')
          ∧ (success_count ≤ n ≤ success_count + List.length documents)%nat.
Proof. apply sync_documents_records. Qed.

Lemma pass_over_records_returns_witness :
  ∃ n w',
    sync_documents example_env
      [VDict [("id", VStr "d4"); ("title", VNone)]; team_sync_doc (VDict [])]
      "token" 0 empty_world
    = (Ok n, w')
    ∧ (0 ≤ n ≤ 0 + 2)%nat.
Proof.
  apply (pass_over_records_returns example_env
           [VDict [("id", VStr "d4"); ("title", VNone)]; team_sync_doc (VDict [])]
           "token" 0 empty_world).
  repeat constructor; eexists; reflexivity.
Defined.

(** X25. A document that is not a record stops the pass: the exception
    raised by [sync_document] is caught, but the handler reads the title of
    the document and raises [AttributeError] again, outside any handler.  The
    documents after it are not processed: the world is the one reached after
    the documents before it. *)
Theorem document_that_is_not_a_record_stops_the_pass (E : env)
    (before after : list value) (bad : value) (token : string)
    (success_count n : nat) (w w1 : world) :
  (∀ d, bad ≠ VDict d) →
  sync_documents E before token success_count w = (Ok n, w1) →
  sync_documents E (before ++ bad :: after) token success_count w
  = (Raise AttributeError, w1).
Proof.
  intros Hbad Hbefore. rewrite sync_documents_app, M_bind_unfold, Hbefore.
  cbn [sync_documents]. rewrite (sync_document_not_a_record E bad token w1 Hbad).
  rewrite lift_bind. destruct bad; try reflexivity. now destruct (Hbad d).
Qed.

Lemma document_that_is_not_a_record_stops_the_pass_witness :
  sync_documents example_env ([] ++ VStr "d1" :: [team_sync_doc (VDict [])])
    "token" 0 empty_world
  = (Raise AttributeError, empty_world).
Proof.
  apply (document_that_is_not_a_record_stops_the_pass example_env []
           [team_sync_doc (VDict [])] (VStr "d1") "token" 0 0 empty_world empty_world).
  - discriminate.
  - reflexivity.
Defined.

(** ** The access token *)

(** X26. [load_access_token] never returns an empty token: when it returns,
    it gives either [None], after logging exactly one error, or a truthy
    token without logging anything, and that token is the [access_token]
    entry of the object decoded from the string under [workos_tokens] in the
    object decoded from the credentials file. *)
Theorem load_access_token_result (C : creds_env) (token : value)
    (errors : list creds_error) :
  load_access_token C = (Ok token, errors) →
  (token = VNone ∧ ∃ error, errors = [error])
  ∨ (Py.truthy token = true ∧ errors = []
     ∧ ∃ text data encoded tokens,
         creds C = CredsText text
         ∧ json_loads C text = Some (VDict data)
         ∧ Py.lookup data "workos_tokens" = Some (VStr encoded)
         ∧ json_loads C encoded = Some (VDict tokens)
         ∧ token = Py.dget tokens "access_token" VNone).
Proof.
  unfold load_access_token.
  destruct (creds C) as [| |text] eqn:Hcreds;
    try (intros [= <- <-]; left; eauto).
  destruct (json_loads C text) as [data|] eqn:Hdata;
    [|intros [= <- <-]; left; eauto].
  unfold token_of_data. destruct data as [| | | |s|l|d]; try discriminate.
  - destruct (PyStr.contains "workos_tokens" s); [discriminate|].
    intros [= <- <-]; left; eauto.
  - destruct (existsb _ l); [discriminate|]. intros [= <- <-]; left; eauto.
  - destruct (Py.lookup d "workos_tokens") as [entry|] eqn:Hentry;
      [|intros [= <- <-]; left; eauto].
    destruct entry as [| | | |encoded| |]; try discriminate.
    destruct (json_loads C encoded) as [workos_tokens|] eqn:Htokens;
      [|intros [= <- <-]; left; eauto].
    destruct workos_tokens as [| | | | | |tokens]; try discriminate.
    rewrite get_dict.
    destruct (Py.truthy (Py.dget tokens "access_token" VNone)) eqn:Htruthy;
      intros [= <- <-]; [|left; eauto].
    right. split; [exact Htruthy|]. split; [reflexivity|].
    exists text, d, encoded, tokens. auto.
Qed.

Lemma load_access_token_result_witness :
  (VStr "abc" = VNone ∧ ∃ error, @nil creds_error = [error])
  ∨ (Py.truthy (VStr "abc") = true ∧ @nil creds_error = []
     ∧ ∃ text data encoded tokens,
         CredsText "outer" = CredsText text
         ∧ (if String.eqb text "outer"
            then Some (VDict [("workos_tokens", VStr "inner")])
            else Some (VDict [("access_token", VStr "abc")]))
           = Some (VDict data)
         ∧ Py.lookup data "workos_tokens" = Some (VStr encoded)
         ∧ (if String.eqb encoded "outer"
            then Some (VDict [("workos_tokens", VStr "inner")])
            else Some (VDict [("access_token", VStr "abc")]))
           = Some (VDict tokens)
         ∧ VStr "abc" = Py.dget tokens "access_token" VNone).
Proof.
  apply (load_access_token_result
           {| creds := CredsText "outer";
              json_loads := fun s =>
                if String.eqb s "outer"
                then Some (VDict [("workos_tokens", VStr "inner")])
                else Some (VDict [("access_token", VStr "abc")]) |}
           (VStr "abc") []).
  reflexivity.
Defined.
